(** * The preview lifecycle coordinator of vscode-livepreview (src/manager.ts)

    A shallow embedding of the [Manager] class: its private fields, the
    collaborators it talks to (server, task provider, connection manager,
    workspace and endpoint managers, the editor host) and every method and
    event handler of the class, written in a small state-and-trace monad.
    Every call that leaves the class (to a collaborator or to the editor API)
    is recorded as an [Effect]. *)

From Stdlib Require Import ZArith List Ascii String Bool Lia.
From Stdlib Require Import Floats.SpecFloat.
Import ListNotations.
Open Scope list_scope.

(* ------------------------------------------------------------------ *)
(** ** Data *)

(** [vscode.WebviewPanel]: either handed in by the host (a revived panel) or
    made by [vscode.window.createWebviewPanel]. *)
Inductive WebviewPanel : Type :=
| HostPanel (id : nat)
| CreatedPanel (id : nat).

(** [interface serverMsg] *)
Record serverMsg : Type := mkServerMsg {
  method : string;
  url : string;
  status : Z
}.

(** [interface launchInfo] *)
Record launchInfo : Type := mkLaunchInfo {
  external : bool;
  file : string;
  relative : bool;
  panel : option WebviewPanel
}.

(** [enum ServerStartedStatus] of the task provider. *)
Inductive ServerStartedStatus : Type :=
| JUST_STARTED
| STARTED_BY_EMBEDDED_PREV.

(** One [BrowserPreview] object: [new BrowserPreview(file, panel, ...)].
    [bp_id] tells two objects built from the same arguments apart. *)
Record BrowserPreview : Type := mkBrowserPreview {
  bp_id : nat;
  bp_file : string;
  bp_panel : WebviewPanel
}.

(** A JS number is an IEEE 754 binary64 value; [spec_float] with 53 bits of
    mantissa and [emax = 1024] is the standard library's specification of it. *)
Definition JsNumber : Type := spec_float.

(** The JS number a whole number denotes (exact up to [2^53]). *)
Definition number_of_Z (z : Z) : JsNumber := binary_normalize 53 1024 z 0 false.

(** The JS number a decimal literal [num/den] denotes: the binary64 value
    nearest to the quotient. *)
Definition number_of_decimal (num den : Z) : JsNumber :=
  SFdiv 53 1024 (number_of_Z num) (number_of_Z den).

(** [x * y] on JS numbers: the binary64 product, rounded to nearest even. *)
Definition jsMul (x y : JsNumber) : JsNumber := SFmul 53 1024 x y.

(** An integral JS number, as [Math.floor] returns it: a whole number, an
    infinity or [NaN] (the sign of a zero is not kept). *)
Inductive JsInteger : Type :=
| JsInt (z : Z)
| JsInfinity (negative : bool)
| JsNaN.

(** [Math.floor(x)]: the greatest whole number not above [x]. A finite
    binary64 value is [+-m * 2^e]; shifting by [e] (to the right for a
    negative [e]) rounds towards minus infinity. *)
Definition Math_floor (x : JsNumber) : JsInteger :=
  match x with
  | S754_zero _ => JsInt 0
  | S754_infinity negative => JsInfinity negative
  | S754_nan => JsNaN
  | S754_finite negative m e =>
      JsInt (Z.shiftl (if negative then Z.neg m else Z.pos m) e)
  end.

Definition jsInteger_eqb (a b : JsInteger) : bool :=
  match a, b with
  | JsInt x, JsInt y => Z.eqb x y
  | JsInfinity s, JsInfinity t => Bool.eqb s t
  | JsNaN, JsNaN => true
  | _, _ => false
  end.

(** What [SettingUtil.GetConfig(extensionUri)] returns, restricted to the
    settings the class reads. The keep-alive is a JS number of minutes and
    need not be whole. *)
Record LiveServerConfig : Type := mkConfig {
  portNumber : Z;
  runTaskWithExternalPreview : bool;
  browserPreviewLaunchServerLogging : bool;
  serverKeepAliveAfterEmbeddedPreviewClose : JsNumber;
  notifyOnOpenLooseFile : bool
}.

(** The address opened by [vscode.env.openExternal]: the template
    [http://${HOST}:${port}${path}] with its two holes; [HOST] is a constant. *)
Record ExternalUri : Type := mkExternalUri {
  uri_port : Z;
  uri_path : string
}.

(* ------------------------------------------------------------------ *)
(** ** Collaborators, at their interface *)

Module Server.
(** Modelled from the spec: [Server] (./server/serverManager) is not part of
    the sources at hand; its contract is [start(port) -> success: bool],
    [stop()], [isRunning: bool] and the [connected] event, which arrives
    asynchronously after a start. [startResult] is what [openServer(port)]
    answers. *)
Record t : Type := mk {
  isRunning : bool;
  startResult : Z -> bool
}.
End Server.

Module ServerTaskProvider.
(** Modelled from the spec: the task bridge; [isRunning] is read by the
    class and changed only by the task provider itself. *)
Record t : Type := mk {
  isRunning : bool
}.
End ServerTaskProvider.

Module ConnectionManager.
(** Modelled from the spec: owns the port; [uriWaiters] counts the [then]
    callbacks registered on [resolveExternalHTTPUri()] not yet called. *)
Record t : Type := mk {
  httpPort : Z;
  pendingPort : Z;
  uriWaiters : nat
}.
End ConnectionManager.

Module WorkspaceManager.
(** Modelled from the spec: workspace and path resolution. *)
Record t : Type := mk {
  workspace : option string;
  absPathInDefaultWorkspace : string -> bool;
  absPathInAnyWorkspace : string -> bool;
  getFileRelativeToDefaultWorkspace : string -> string
}.
End WorkspaceManager.

Module EndpointManager.
(** Modelled from the spec: [encodeLooseFileEndpoint(path) -> endpoint]. *)
Record t : Type := mk {
  encodeLooseFileEndpoint : string -> string
}.
End EndpointManager.

Module Host.
(** The editor host and the JS runtime: the settings store, the pending
    [setTimeout] timers (id, delay in ms), the [BrowserPreview] objects not
    yet disposed, and the counters that make fresh ids. *)
Record t : Type := mk {
  config : LiveServerConfig;
  timers : list (nat * JsInteger);
  nextTimer : nat;
  sessions : list BrowserPreview;
  nextSession : nat;
  nextPanel : nat;
  openWarnings : nat
}.
End Host.

(** Every call that leaves the class. *)
Inductive Effect : Type :=
| ServerOpenServer (port : Z)
| ServerCloseServer
| ServerUpdateConfigurations
| TaskServerStarted (uri : string) (st : ServerStartedStatus)
| TaskServerStop (now : bool)
| TaskExtRunTask (verbose : bool)
| TaskSendServerInfoToTerminal (msg : serverMsg)
| ConnResolveExternalHTTPUri
| ConnDisconnected
| EndpointEncode (location : string)
| CreateWebviewPanel (p : WebviewPanel)
| NewBrowserPreview (bp : BrowserPreview)
| PreviewReveal (bp : BrowserPreview) (shown : string)
| PreviewClose (bp : BrowserPreview)
| OpenExternal (uri : ExternalUri)
| ExecuteVscodeOpen (uri : string) (viewColumn : option Z)
| SendTelemetryEvent (name : string)
| ShowWarningMessage
| UpdateSettingNotifyOnOpenLooseFile (value : bool)
| SetTimeout (id : nat) (ms : JsInteger)
| ClearTimeout (id : nat).

(* ------------------------------------------------------------------ *)
(** ** The class state *)

(** [class Manager]: the fields of the class under their source names, and
    the host the object lives in. *)
Record Manager : Type := mkManager {
  currentPanel : option BrowserPreview;
  _server : Server.t;
  _serverTaskProvider : ServerTaskProvider.t;
  _previewActive : bool;
  _currentTimeout : option nat;
  _notifiedAboutLooseFiles : bool;
  _endpointManager : EndpointManager.t;
  _workspaceManager : WorkspaceManager.t;
  _connectionManager : ConnectionManager.t;
  _pendingLaunchInfo : option launchInfo;
  _runTaskWithExternalPreview : bool;
  host : Host.t
}.

Definition set_currentPanel (v : option BrowserPreview) (m : Manager) : Manager :=
  mkManager v (_server m) (_serverTaskProvider m) (_previewActive m)
    (_currentTimeout m) (_notifiedAboutLooseFiles m) (_endpointManager m)
    (_workspaceManager m) (_connectionManager m) (_pendingLaunchInfo m)
    (_runTaskWithExternalPreview m) (host m).

Definition set_server (v : Server.t) (m : Manager) : Manager :=
  mkManager (currentPanel m) v (_serverTaskProvider m) (_previewActive m)
    (_currentTimeout m) (_notifiedAboutLooseFiles m) (_endpointManager m)
    (_workspaceManager m) (_connectionManager m) (_pendingLaunchInfo m)
    (_runTaskWithExternalPreview m) (host m).

Definition set_serverTaskProvider (v : ServerTaskProvider.t) (m : Manager) : Manager :=
  mkManager (currentPanel m) (_server m) v (_previewActive m)
    (_currentTimeout m) (_notifiedAboutLooseFiles m) (_endpointManager m)
    (_workspaceManager m) (_connectionManager m) (_pendingLaunchInfo m)
    (_runTaskWithExternalPreview m) (host m).

Definition set_previewActive (v : bool) (m : Manager) : Manager :=
  mkManager (currentPanel m) (_server m) (_serverTaskProvider m) v
    (_currentTimeout m) (_notifiedAboutLooseFiles m) (_endpointManager m)
    (_workspaceManager m) (_connectionManager m) (_pendingLaunchInfo m)
    (_runTaskWithExternalPreview m) (host m).

Definition set_currentTimeout (v : option nat) (m : Manager) : Manager :=
  mkManager (currentPanel m) (_server m) (_serverTaskProvider m) (_previewActive m)
    v (_notifiedAboutLooseFiles m) (_endpointManager m)
    (_workspaceManager m) (_connectionManager m) (_pendingLaunchInfo m)
    (_runTaskWithExternalPreview m) (host m).

Definition set_notifiedAboutLooseFiles (v : bool) (m : Manager) : Manager :=
  mkManager (currentPanel m) (_server m) (_serverTaskProvider m) (_previewActive m)
    (_currentTimeout m) v (_endpointManager m)
    (_workspaceManager m) (_connectionManager m) (_pendingLaunchInfo m)
    (_runTaskWithExternalPreview m) (host m).

Definition set_endpointManager (v : EndpointManager.t) (m : Manager) : Manager :=
  mkManager (currentPanel m) (_server m) (_serverTaskProvider m) (_previewActive m)
    (_currentTimeout m) (_notifiedAboutLooseFiles m) v
    (_workspaceManager m) (_connectionManager m) (_pendingLaunchInfo m)
    (_runTaskWithExternalPreview m) (host m).

Definition set_workspaceManager (v : WorkspaceManager.t) (m : Manager) : Manager :=
  mkManager (currentPanel m) (_server m) (_serverTaskProvider m) (_previewActive m)
    (_currentTimeout m) (_notifiedAboutLooseFiles m) (_endpointManager m)
    v (_connectionManager m) (_pendingLaunchInfo m)
    (_runTaskWithExternalPreview m) (host m).

Definition set_connectionManager (v : ConnectionManager.t) (m : Manager) : Manager :=
  mkManager (currentPanel m) (_server m) (_serverTaskProvider m) (_previewActive m)
    (_currentTimeout m) (_notifiedAboutLooseFiles m) (_endpointManager m)
    (_workspaceManager m) v (_pendingLaunchInfo m)
    (_runTaskWithExternalPreview m) (host m).

Definition set_pendingLaunchInfo (v : option launchInfo) (m : Manager) : Manager :=
  mkManager (currentPanel m) (_server m) (_serverTaskProvider m) (_previewActive m)
    (_currentTimeout m) (_notifiedAboutLooseFiles m) (_endpointManager m)
    (_workspaceManager m) (_connectionManager m) v
    (_runTaskWithExternalPreview m) (host m).

Definition set_runTaskWithExternalPreview (v : bool) (m : Manager) : Manager :=
  mkManager (currentPanel m) (_server m) (_serverTaskProvider m) (_previewActive m)
    (_currentTimeout m) (_notifiedAboutLooseFiles m) (_endpointManager m)
    (_workspaceManager m) (_connectionManager m) (_pendingLaunchInfo m)
    v (host m).

Definition set_host (v : Host.t) (m : Manager) : Manager :=
  mkManager (currentPanel m) (_server m) (_serverTaskProvider m) (_previewActive m)
    (_currentTimeout m) (_notifiedAboutLooseFiles m) (_endpointManager m)
    (_workspaceManager m) (_connectionManager m) (_pendingLaunchInfo m)
    (_runTaskWithExternalPreview m) v.

(* ------------------------------------------------------------------ *)
(** ** The monad: state passing with a trace of effects *)

Definition M (A : Type) : Type := Manager -> A * Manager * list Effect.

Definition ret {A : Type} (a : A) : M A := fun m => (a, m, []).

Definition bind {A B : Type} (c : M A) (k : A -> M B) : M B :=
  fun m =>
    let r1 := c m in
    let r2 := k (fst (fst r1)) (snd (fst r1)) in
    (fst (fst r2), snd (fst r2), snd r1 ++ snd r2).

Definition get : M Manager := fun m => (m, m, []).
Definition modify (f : Manager -> Manager) : M unit := fun m => (tt, f m, []).
Definition emit (e : Effect) : M unit := fun m => (tt, m, [e]).
Definition when (b : bool) (c : M unit) : M unit := if b then c else ret tt.

Declare Scope manager_scope.
Delimit Scope manager_scope with mgr.
Notation "x <- c ;; k" := (bind c (fun x => k))
  (at level 61, c at next level, right associativity) : manager_scope.
Notation "c ;; k" := (bind c (fun _ => k))
  (at level 61, right associativity) : manager_scope.
Open Scope manager_scope.

(** Projections of a run. *)
Definition result {A : Type} (r : A * Manager * list Effect) : A := fst (fst r).
Definition after {A : Type} (r : A * Manager * list Effect) : Manager := snd (fst r).
Definition effects {A : Type} (r : A * Manager * list Effect) : list Effect := snd r.

(* ------------------------------------------------------------------ *)
(** ** The host API the class calls *)

Definition set_timers (v : list (nat * JsInteger)) (h : Host.t) : Host.t :=
  Host.mk (Host.config h) v (Host.nextTimer h) (Host.sessions h)
    (Host.nextSession h) (Host.nextPanel h) (Host.openWarnings h).

Definition set_nextTimer (v : nat) (h : Host.t) : Host.t :=
  Host.mk (Host.config h) (Host.timers h) v (Host.sessions h)
    (Host.nextSession h) (Host.nextPanel h) (Host.openWarnings h).

Definition set_sessions (v : list BrowserPreview) (h : Host.t) : Host.t :=
  Host.mk (Host.config h) (Host.timers h) (Host.nextTimer h) v
    (Host.nextSession h) (Host.nextPanel h) (Host.openWarnings h).

Definition set_nextSession (v : nat) (h : Host.t) : Host.t :=
  Host.mk (Host.config h) (Host.timers h) (Host.nextTimer h) (Host.sessions h)
    v (Host.nextPanel h) (Host.openWarnings h).

Definition set_nextPanel (v : nat) (h : Host.t) : Host.t :=
  Host.mk (Host.config h) (Host.timers h) (Host.nextTimer h) (Host.sessions h)
    (Host.nextSession h) v (Host.openWarnings h).

Definition set_openWarnings (v : nat) (h : Host.t) : Host.t :=
  Host.mk (Host.config h) (Host.timers h) (Host.nextTimer h) (Host.sessions h)
    (Host.nextSession h) (Host.nextPanel h) v.

Definition set_config (v : LiveServerConfig) (h : Host.t) : Host.t :=
  Host.mk v (Host.timers h) (Host.nextTimer h) (Host.sessions h)
    (Host.nextSession h) (Host.nextPanel h) (Host.openWarnings h).

Definition modify_host (f : Host.t -> Host.t) : M unit :=
  modify (fun m => set_host (f (host m)) m).

(** [SettingUtil.GetConfig(this._extensionUri)] *)
Definition GetConfig : M LiveServerConfig :=
  m <- get ;; ret (Host.config (host m)).

(** [setTimeout(callback, ms)]: a fresh handle, now pending. Every timer the
    class sets has the same callback ([shutdownTimerCallback] below). *)
Definition setTimeout (ms : JsInteger) : M nat :=
  m <- get ;;
  let id := Host.nextTimer (host m) in
  modify_host (fun h => set_nextTimer (S id) (set_timers (Host.timers h ++ [(id, ms)]) h)) ;;
  emit (SetTimeout id ms) ;;
  ret id.

Definition cancel_timer (id : nat) (ts : list (nat * JsInteger))
  : list (nat * JsInteger) :=
  filter (fun t => negb (Nat.eqb (fst t) id)) ts.

(** [clearTimeout(handle)]: the timer is no longer pending; nothing happens for
    a handle that already fired or was cleared. *)
Definition clearTimeout (id : nat) : M unit :=
  modify_host (fun h => set_timers (cancel_timer id (Host.timers h)) h) ;;
  emit (ClearTimeout id).

(** [vscode.window.createWebviewPanel(...)] *)
Definition createWebviewPanel : M WebviewPanel :=
  m <- get ;;
  let p := CreatedPanel (Host.nextPanel (host m)) in
  modify_host (fun h => set_nextPanel (S (Host.nextPanel h)) h) ;;
  emit (CreateWebviewPanel p) ;;
  ret p.

(** [new BrowserPreview(file, panel, ...)]: a new live session. *)
Definition newBrowserPreview (f : string) (p : WebviewPanel) : M BrowserPreview :=
  m <- get ;;
  let bp := mkBrowserPreview (Host.nextSession (host m)) f p in
  modify_host (fun h => set_nextSession (S (Host.nextSession h))
                          (set_sessions (Host.sessions h ++ [bp]) h)) ;;
  emit (NewBrowserPreview bp) ;;
  ret bp.

Definition same_session (a b : BrowserPreview) : bool :=
  Nat.eqb (bp_id a) (bp_id b).

Definition is_live (bp : BrowserPreview) (ss : list BrowserPreview) : bool :=
  existsb (same_session bp) ss.

Definition drop_session (bp : BrowserPreview) (ss : list BrowserPreview)
  : list BrowserPreview :=
  filter (fun s => negb (same_session bp s)) ss.

(** [vscode.window.showWarningMessage(text, DONT_SHOW_AGAIN)]: the prompt is
    on screen until the user answers it. *)
Definition showWarningMessage : M unit :=
  modify_host (fun h => set_openWarnings (S (Host.openWarnings h)) h) ;;
  emit ShowWarningMessage.

(** JS truthiness of an optional object: [undefined] is false, an object true. *)
Definition truthy {A : Type} (o : option A) : bool :=
  match o with
  | Some _ => true
  | None => false
  end.

(** [Math.floor(closeServerDelay * 1000 * 60)], in JS numbers: the two
    products are binary64 products, taken from left to right. *)
Definition keepAliveMs (closeServerDelay : JsNumber) : JsInteger :=
  Math_floor (jsMul (jsMul closeServerDelay (number_of_Z 1000)) (number_of_Z 60)).

Arguments keepAliveMs : simpl never.

(** The backslash character (code 92). *)
Definition backslash : ascii := Ascii.ascii_of_nat 92.

(** [text.replace(/BACKSLASH/g, '/')]: every backslash becomes a slash. *)
Fixpoint replaceBackslashes (s : string) : string :=
  match s with
  | EmptyString => EmptyString
  | String c rest =>
      String (if Ascii.eqb c backslash then "/"%char else c) (replaceBackslashes rest)
  end.

(* ------------------------------------------------------------------ *)
(** ** The methods of the class *)

(** [private get _serverPort()] *)
Definition _serverPort : M Z :=
  m <- get ;; ret (ConnectionManager.httpPort (_connectionManager m)).

(** [public get workspace()] *)
Definition workspace : M (option string) :=
  m <- get ;; ret (WorkspaceManager.workspace (_workspaceManager m)).

(** [public encodeEndpoint(location)] *)
Definition encodeEndpoint (location : string) : M string :=
  m <- get ;;
  emit (EndpointEncode location) ;;
  ret (EndpointManager.encodeLooseFileEndpoint (_endpointManager m) location).

(** [private notifyLooseFileOpen()] *)
Definition notifyLooseFileOpen : M unit :=
  emit (SendTelemetryEvent "preview.fileOutOfWorkspace") ;;
  m <- get ;;
  cfg <- GetConfig ;;
  when (negb (_notifiedAboutLooseFiles m) && notifyOnOpenLooseFile cfg)
       showWarningMessage ;;
  modify (set_notifiedAboutLooseFiles true).

(** [private transformNonRelativeFile(relative, file)] *)
Definition transformNonRelativeFile (relative : bool) (file : string) : M string :=
  if negb relative then
    m <- get ;;
    if negb (WorkspaceManager.absPathInDefaultWorkspace (_workspaceManager m) file) then
      when (negb (WorkspaceManager.absPathInAnyWorkspace (_workspaceManager m) file))
           notifyLooseFileOpen ;;
      encodeEndpoint file
    else
      ret (WorkspaceManager.getFileRelativeToDefaultWorkspace (_workspaceManager m) file)
  else ret file.

(** [private launchFileInExternalBrowser(file, relative)] *)
Definition launchFileInExternalBrowser (file : string) (relative : bool) : M unit :=
  f <- transformNonRelativeFile relative file ;;
  let relFile := replaceBackslashes f in
  port <- _serverPort ;;
  emit (OpenExternal (mkExternalUri port relFile)).

(** The [currentPanel.onDispose] handler registered by
    [startEmbeddedPreview]. *)
Definition onDisposeHandler : M unit :=
  modify (set_currentPanel None) ;;
  cfg <- GetConfig ;;
  let closeServerDelay := serverKeepAliveAfterEmbeddedPreviewClose cfg in
  id <- setTimeout (keepAliveMs closeServerDelay) ;;
  modify (set_currentTimeout (Some id)).

(** Modelled from the spec: [BrowserPreview] (./editorPreview/browserPreview)
    is not part of the sources at hand. Its disposal delivers the single-fire
    [onDispose] notification; a session already disposed delivers nothing. *)
Definition disposeSession (bp : BrowserPreview) : M unit :=
  m <- get ;;
  if is_live bp (Host.sessions (host m)) then
    modify_host (fun h => set_sessions (drop_session bp (Host.sessions h)) h) ;;
    onDisposeHandler
  else ret tt.

(** Modelled from the spec: [BrowserPreview.close()] is disposal, idempotent. *)
Definition previewClose (bp : BrowserPreview) : M unit :=
  emit (PreviewClose bp) ;;
  disposeSession bp.

(** [public openServer(fromTask = false)] *)
Definition openServer (fromTask : bool) : M bool :=
  m <- get ;;
  if negb (Server.isRunning (_server m)) then
    port <- _serverPort ;;
    emit (ServerOpenServer port) ;;
    ret (Server.startResult (_server m) port)
  else
    when fromTask
      (emit ConnResolveExternalHTTPUri ;;
       modify (fun m => set_connectionManager
                 (ConnectionManager.mk
                    (ConnectionManager.httpPort (_connectionManager m))
                    (ConnectionManager.pendingPort (_connectionManager m))
                    (S (ConnectionManager.uriWaiters (_connectionManager m)))) m)) ;;
    ret true.

(** Modelled from the spec: [Server.closeServer()] stops the server. *)
Definition serverCloseServer : M unit :=
  emit ServerCloseServer ;;
  modify (fun m => set_server (Server.mk false (Server.startResult (_server m))) m).

(** [public closeServer()] *)
Definition closeServer : M bool :=
  m <- get ;;
  if Server.isRunning (_server m) then
    serverCloseServer ;;
    match currentPanel m with
    | Some bp => previewClose bp
    | None => ret tt
    end ;;
    m1 <- get ;;
    when (ServerTaskProvider.isRunning (_serverTaskProvider m1))
         (emit (TaskServerStop true)) ;;
    emit ConnDisconnected ;;
    ret true
  else ret false.

(** The callback of the timer set by the [onDispose] handler. *)
Definition shutdownTimerCallback : M unit :=
  m <- get ;;
  when (Server.isRunning (_server m)
        && negb (ServerTaskProvider.isRunning (_serverTaskProvider m))
        && truthy (WorkspaceManager.workspace (_workspaceManager m))
        && _runTaskWithExternalPreview m)
       (closeServer ;; ret tt) ;;
  modify (set_previewActive false).

(** The [currentPanel.onShiftToExternalBrowser] handler registered by
    [startEmbeddedPreview]. *)
Definition onShiftToExternalBrowserHandler : M unit :=
  m <- get ;;
  when (negb (ServerTaskProvider.isRunning (_serverTaskProvider m))
        && _runTaskWithExternalPreview m)
       (emit (TaskExtRunTask true)).

(** [private startEmbeddedPreview(panel, file)] *)
Definition startEmbeddedPreview (panel : WebviewPanel) (file : string) : M unit :=
  m <- get ;;
  match _currentTimeout m with
  | Some t => clearTimeout t
  | None => ret tt
  end ;;
  bp <- newBrowserPreview file panel ;;
  modify (set_currentPanel (Some bp)) ;;
  modify (set_previewActive true).

(** [private launchFileInEmbeddedPreview(file, relative, panel)] *)
Definition launchFileInEmbeddedPreview
    (file : string) (relative : bool) (panel : option WebviewPanel) : M unit :=
  file' <- transformNonRelativeFile relative file ;;
  m <- get ;;
  match currentPanel m with
  | Some cur => emit (PreviewReveal cur file')
  | None =>
      p <- match panel with
           | Some p => ret p
           | None => createWebviewPanel
           end ;;
      startEmbeddedPreview p file'
  end.

(** [public createOrShowEmbeddedPreview(panel, file, relative)] *)
Definition createOrShowEmbeddedPreview
    (panel : option WebviewPanel) (file : string) (relative : bool) : M unit :=
  m <- get ;;
  if negb (Server.isRunning (_server m)) then
    modify (set_pendingLaunchInfo (Some (mkLaunchInfo false file relative panel))) ;;
    openServer false ;;
    ret tt
  else launchFileInEmbeddedPreview file relative panel.

(** [dispose()] *)
Definition dispose : M unit :=
  serverCloseServer.

(** [public showPreviewInBrowser(file, relative)] *)
Definition showPreviewInBrowser (file : string) (relative : bool) : M unit :=
  m <- get ;;
  if negb (ServerTaskProvider.isRunning (_serverTaskProvider m)) then
    (if negb (Server.isRunning (_server m)) then
       modify (set_pendingLaunchInfo (Some (mkLaunchInfo true file relative None)))
     else launchFileInExternalBrowser file relative) ;;
    ws <- workspace ;;
    m1 <- get ;;
    if truthy ws && _runTaskWithExternalPreview m1 then
      cfg <- GetConfig ;;
      emit (TaskExtRunTask (browserPreviewLaunchServerLogging cfg))
    else
      serverOn <- openServer false ;;
      if negb serverOn then ret tt else ret tt
  else launchFileInExternalBrowser file relative.

(* ------------------------------------------------------------------ *)
(** ** The handlers registered by the constructor *)

(** [this._server.onNewReqProcessed] *)
Definition onNewReqProcessedHandler (e : serverMsg) : M unit :=
  emit (TaskSendServerInfoToTerminal e).

(** [this._serverTaskProvider.onRequestToOpenServer] *)
Definition onRequestToOpenServerHandler : M unit :=
  openServer true ;; ret tt.

(** [this._serverTaskProvider.onRequestToCloseServer] *)
Definition onRequestToCloseServerHandler : M unit :=
  m <- get ;;
  if _previewActive m then emit (TaskServerStop false)
  else
    closeServer ;;
    emit (TaskServerStop true).

(** [this._connectionManager.onConnected] *)
Definition onConnectedHandler (httpURI : string) : M unit :=
  emit (TaskServerStarted httpURI JUST_STARTED) ;;
  m <- get ;;
  match _pendingLaunchInfo m with
  | Some li =>
      (if external li then launchFileInExternalBrowser (file li) (relative li)
       else launchFileInEmbeddedPreview (file li) (relative li) (panel li)) ;;
      modify (set_pendingLaunchInfo None)
  | None => ret tt
  end.

(** [vscode.workspace.onDidChangeConfiguration], for a change that affects
    the extension's settings section or not. *)
Definition onDidChangeConfigurationHandler (affects : bool) : M unit :=
  when affects
    (emit ServerUpdateConfigurations ;;
     cfg <- GetConfig ;;
     modify (fun m => set_connectionManager
               (ConnectionManager.mk
                  (ConnectionManager.httpPort (_connectionManager m))
                  (portNumber cfg)
                  (ConnectionManager.uriWaiters (_connectionManager m))) m) ;;
     cfg' <- GetConfig ;;
     modify (set_runTaskWithExternalPreview (runTaskWithExternalPreview cfg'))).

(** [this._serverTaskProvider.onRequestOpenEditorToSide]; [viewColumn] is
    [this.currentPanel.panel.viewColumn] at that moment, [ViewColumn.One] is 1. *)
Definition onRequestOpenEditorToSideHandler (uri : string) (viewColumn : option Z)
  : M unit :=
  m <- get ;;
  if _previewActive m && truthy (currentPanel m) then
    let avoidColumn := match viewColumn with Some c => c | None => 1%Z end in
    let column := if Z.eqb avoidColumn 1 then (avoidColumn + 1)%Z
                  else (avoidColumn - 1)%Z in
    emit (ExecuteVscodeOpen uri (Some column))
  else emit (ExecuteVscodeOpen uri None).

(** The [then] callback of [resolveExternalHTTPUri()] in [openServer]. *)
Definition onExternalUriResolved (uri : string) : M unit :=
  emit (TaskServerStarted uri STARTED_BY_EMBEDDED_PREV).

(** The [then] callback of [showWarningMessage] in [notifyLooseFileOpen];
    the only item offered is [DONT_SHOW_AGAIN]. *)
Definition onWarningAnswered (dontShowAgain : bool) : M unit :=
  when dontShowAgain (emit (UpdateSettingNotifyOnOpenLooseFile false)).

(** Modelled from the spec: the server is running from the moment it reports
    its connection; the [connected] event is what the handler below receives. *)
Definition serverConnected : M unit :=
  modify (fun m => set_server (Server.mk true (Server.startResult (_server m))) m).

(** Modelled from the spec: a server that terminates on its own is stopped;
    no handler of the class is told. *)
Definition serverTerminated : M unit :=
  modify (fun m => set_server (Server.mk false (Server.startResult (_server m))) m).

(** The state the constructor leaves. *)
Definition initial (cfg : LiveServerConfig) (ws : WorkspaceManager.t)
    (ep : EndpointManager.t) (startResult : Z -> bool) (taskRunning : bool)
  : Manager :=
  mkManager None
    (Server.mk false startResult)
    (ServerTaskProvider.mk taskRunning)
    false None false ep ws
    (ConnectionManager.mk (portNumber cfg) (portNumber cfg) 0)
    None
    (runTaskWithExternalPreview cfg)
    (Host.mk cfg [] 0 [] 0 0 0).

(* ------------------------------------------------------------------ *)
(** ** The coordinator as a state machine *)

(** What can happen to a coordinator: the host calls a public method, a
    collaborator or the runtime delivers an event to a registered handler, or
    a collaborator changes behind the coordinator's back. *)
Inductive Event : Type :=
| CallCreateOrShowEmbeddedPreview (panel : option WebviewPanel) (file : string)
                                  (relative : bool)
| CallShowPreviewInBrowser (file : string) (relative : bool)
| CallOpenServer (fromTask : bool)
| CallCloseServer
| CallDispose
| NewReqProcessed (e : serverMsg)
| RequestToOpenServer
| RequestToCloseServer
| RequestOpenEditorToSide (uri : string) (viewColumn : option Z)
| Connected (httpURI : string)
| ConfigurationChanged (cfg : LiveServerConfig) (affects : bool)
| PanelDisposed (bp : BrowserPreview)
| ShiftToExternalBrowser (bp : BrowserPreview)
| TimerFired (id : nat)
| ExternalUriResolved (uri : string)
| WarningAnswered (dontShowAgain : bool)
| TaskRunningChanged (running : bool)
| WorkspaceChanged (ws : WorkspaceManager.t)
| EndpointsChanged (ep : EndpointManager.t)
| ServerStartResultChanged (startResult : Z -> bool)
| ServerTerminated
| HttpPortChanged (port : Z).

Definition is_pending (id : nat) (ts : list (nat * JsInteger)) : bool :=
  existsb (fun t => Nat.eqb (fst t) id) ts.

(** Whether the event can happen in this state: a session notifies only while
    it is live, a timer fires only while pending, a promise callback runs only
    if one is waiting. *)
Definition enabled (e : Event) (m : Manager) : bool :=
  match e with
  | PanelDisposed bp => is_live bp (Host.sessions (host m))
  | ShiftToExternalBrowser bp => is_live bp (Host.sessions (host m))
  | TimerFired id => is_pending id (Host.timers (host m))
  | ExternalUriResolved _ =>
      negb (Nat.eqb (ConnectionManager.uriWaiters (_connectionManager m)) 0)
  | WarningAnswered _ => negb (Nat.eqb (Host.openWarnings (host m)) 0)
  | _ => true
  end.

(** What the event does. *)
Definition handle (e : Event) : M unit :=
  match e with
  | CallCreateOrShowEmbeddedPreview panel file relative =>
      createOrShowEmbeddedPreview panel file relative
  | CallShowPreviewInBrowser file relative => showPreviewInBrowser file relative
  | CallOpenServer fromTask => openServer fromTask ;; ret tt
  | CallCloseServer => closeServer ;; ret tt
  | CallDispose => dispose
  | NewReqProcessed e => onNewReqProcessedHandler e
  | RequestToOpenServer => onRequestToOpenServerHandler
  | RequestToCloseServer => onRequestToCloseServerHandler
  | RequestOpenEditorToSide uri viewColumn =>
      onRequestOpenEditorToSideHandler uri viewColumn
  | Connected httpURI =>
      serverConnected ;;
      onConnectedHandler httpURI
  | ConfigurationChanged cfg affects =>
      modify_host (set_config cfg) ;;
      onDidChangeConfigurationHandler affects
  | PanelDisposed bp => disposeSession bp
  | ShiftToExternalBrowser _ => onShiftToExternalBrowserHandler
  | TimerFired id =>
      modify_host (fun h => set_timers (cancel_timer id (Host.timers h)) h) ;;
      shutdownTimerCallback
  | ExternalUriResolved uri =>
      modify (fun m => set_connectionManager
                (ConnectionManager.mk
                   (ConnectionManager.httpPort (_connectionManager m))
                   (ConnectionManager.pendingPort (_connectionManager m))
                   (Nat.pred (ConnectionManager.uriWaiters (_connectionManager m)))) m) ;;
      onExternalUriResolved uri
  | WarningAnswered dontShowAgain =>
      modify_host (fun h => set_openWarnings (Nat.pred (Host.openWarnings h)) h) ;;
      onWarningAnswered dontShowAgain
  | TaskRunningChanged running =>
      modify (set_serverTaskProvider (ServerTaskProvider.mk running))
  | WorkspaceChanged ws => modify (set_workspaceManager ws)
  | EndpointsChanged ep => modify (set_endpointManager ep)
  | ServerStartResultChanged startResult =>
      modify (fun m => set_server (Server.mk (Server.isRunning (_server m)) startResult) m)
  | ServerTerminated => serverTerminated
  | HttpPortChanged port =>
      modify (fun m => set_connectionManager
                (ConnectionManager.mk port
                   (ConnectionManager.pendingPort (_connectionManager m))
                   (ConnectionManager.uriWaiters (_connectionManager m))) m)
  end.

Definition step (e : Event) (m : Manager) : option (Manager * list Effect) :=
  if enabled e m then Some (after (handle e m), effects (handle e m)) else None.

(** A run of events; [None] as soon as one of them cannot happen. *)
Fixpoint run (es : list Event) (m : Manager) : option (Manager * list Effect) :=
  match es with
  | [] => Some (m, [])
  | e :: rest =>
      match step e m with
      | Some (m1, fx1) =>
          match run rest m1 with
          | Some (m2, fx2) => Some (m2, fx1 ++ fx2)
          | None => None
          end
      | None => None
      end
  end.

(** The states a coordinator can be in. *)
Inductive reachable : Manager -> Prop :=
| reachable_initial cfg ws ep startResult taskRunning :
    reachable (initial cfg ws ep startResult taskRunning)
| reachable_step e m m' fx :
    reachable m -> step e m = Some (m', fx) -> reachable m'.

(* ------------------------------------------------------------------ *)
(** ** Notions used in the statements *)

(** The state [openServer(true)] leaves when the server is running: one more
    callback waits for the external URI. *)
Definition add_uriWaiter (m : Manager) : Manager :=
  set_connectionManager
    (ConnectionManager.mk
       (ConnectionManager.httpPort (_connectionManager m))
       (ConnectionManager.pendingPort (_connectionManager m))
       (S (ConnectionManager.uriWaiters (_connectionManager m)))) m.


(** [P] on the [k] whole numbers from [z] on. *)
Fixpoint all_from (k : nat) (z : Z) (P : Z -> bool) : bool :=
  match k with
  | O => true
  | S k' => P z && all_from k' (z + 1)%Z P
  end.

(** How many previews a trace creates, and how many server starts it asks for. *)
Definition count_previews (fx : list Effect) : nat :=
  List.length (filter (fun e => match e with NewBrowserPreview _ => true | _ => false end) fx).

Definition count_starts (fx : list Effect) : nat :=
  List.length (filter (fun e => match e with ServerOpenServer _ => true | _ => false end) fx).

(** A sequence of [createOrShowEmbeddedPreview] calls, each given by its
    arguments (panel, file, relative). *)
Definition embeddedCalls (cs : list (option WebviewPanel * string * bool))
  : list Event :=
  map (fun c => CallCreateOrShowEmbeddedPreview (fst (fst c)) (snd (fst c)) (snd c)) cs.

(** What holds of every state a coordinator can be in:
    - an intent is stored only while the server is stopped;
    - while a session is referenced it is the only live one, no shutdown
      timer is pending and [_previewActive] is set;
    - while none is referenced no session is live, and either nothing is
      pending and [_previewActive] is clear, or exactly the timer held in
      [_currentTimeout] is pending and [_previewActive] is still set. *)
Record Inv (m : Manager) : Prop := mkInv {
  inv_pending :
    _pendingLaunchInfo m <> None -> Server.isRunning (_server m) = false;
  inv_panel :
    match currentPanel m with
    | Some bp =>
        Host.sessions (host m) = [bp] /\
        Host.timers (host m) = [] /\
        _previewActive m = true
    | None =>
        Host.sessions (host m) = [] /\
        ((Host.timers (host m) = [] /\ _previewActive m = false) \/
         (exists id ms,
            Host.timers (host m) = [(id, ms)] /\
            _currentTimeout m = Some id /\
            _previewActive m = true))
    end
}.

(* ------------------------------------------------------------------ *)
(** ** Sample collaborators, for evaluating the model on concrete inputs *)

Module Sample.
Definition config : LiveServerConfig :=
  mkConfig 3000 false false (number_of_Z 3) true.

(** Default workspace [/ws], a second workspace folder [/other]. *)
Definition ws : WorkspaceManager.t :=
  WorkspaceManager.mk (Some "/ws"%string)
    (fun p => String.prefix "/ws/" p)
    (fun p => String.prefix "/ws/" p || String.prefix "/other/" p)
    (fun p => String.substring 3 (String.length p - 3) p).

Definition ep : EndpointManager.t :=
  EndpointManager.mk (fun p => ("/endpoint" ++ p)%string).

(** A fresh coordinator whose server starts fine. *)
Definition fresh : Manager := initial config ws ep (fun _ => true) false.

(** A fresh coordinator whose server fails to start. *)
Definition failing : Manager := initial config ws ep (fun _ => false) false.
End Sample.

(** A coordinator with a live preview. *)
Definition previewing : Manager :=
  after (handle (Connected "http://127.0.0.1:3000")
    (after (handle (CallCreateOrShowEmbeddedPreview None "/" true) Sample.fresh))).

(** The same coordinator once the user has closed the panel. *)
Definition panelClosed : Manager :=
  after (handle (PanelDisposed (mkBrowserPreview 0 "/" (CreatedPanel 0))) previewing).

(** The previewing coordinator after an explicit [closeServer()]. *)
Definition serverClosed : Manager :=
  after (handle CallCloseServer previewing).

(** A coordinator whose user has switched the loose-file warning off. *)
Definition quiet : Manager :=
  initial (mkConfig 3000 false false (number_of_Z 3) false)
    Sample.ws Sample.ep (fun _ => true) false.

(* ------------------------------------------------------------------ *)
(** ** Further notions: counting calls in a trace *)

Definition is_prompt (e : Effect) : bool :=
  match e with ShowWarningMessage => true | _ => false end.

Definition is_openExternal (e : Effect) : bool :=
  match e with OpenExternal _ => true | _ => false end.

Definition is_createPanel (e : Effect) : bool :=
  match e with CreateWebviewPanel _ => true | _ => false end.

(** How many prompts a trace shows, how many addresses it opens in the
    external browser, how many webview panels it creates. *)
Definition count_prompts (fx : list Effect) : nat :=
  List.length (filter is_prompt fx).

Definition count_external (fx : list Effect) : nat :=
  List.length (filter is_openExternal fx).

Definition count_panels (fx : list Effect) : nat :=
  List.length (filter is_createPanel fx).

(** The events whose handlers contain a call of [_server.closeServer()]:
    [closeServer()], [dispose()], the close request of the task provider and
    the keep-alive timer. *)
Definition may_close_server (e : Event) : bool :=
  match e with
  | CallCloseServer | CallDispose | RequestToCloseServer | TimerFired _ => true
  | _ => false
  end.

(** Whether a string holds a backslash. *)
Fixpoint has_backslash (s : string) : bool :=
  match s with
  | EmptyString => false
  | String c rest => Ascii.eqb c backslash || has_backslash rest
  end.

(* ------------------------------------------------------------------ *)
(** ** Proof tools *)

(** Unfold the monad and the methods down to the host API. *)
Ltac unfold_ops :=
  unfold step, handle, enabled,
    createOrShowEmbeddedPreview, showPreviewInBrowser,
    onConnectedHandler, onRequestToCloseServerHandler,
    onRequestToOpenServerHandler, onNewReqProcessedHandler,
    onDidChangeConfigurationHandler, onRequestOpenEditorToSideHandler,
    onExternalUriResolved, onWarningAnswered,
    launchFileInEmbeddedPreview, launchFileInExternalBrowser,
    startEmbeddedPreview, shutdownTimerCallback,
    onShiftToExternalBrowserHandler, closeServer, serverCloseServer,
    serverConnected, serverTerminated,
    dispose, openServer, previewClose, disposeSession, onDisposeHandler,
    transformNonRelativeFile, notifyLooseFileOpen, encodeEndpoint,
    workspace, _serverPort, showWarningMessage, newBrowserPreview,
    createWebviewPanel, clearTimeout, setTimeout, GetConfig, modify_host,
    when, result, after, effects in *.

(** Split on the first test that blocks evaluation, at the atom it reads. *)
Ltac split_bool b :=
  lazymatch b with
  | negb ?x => split_bool x
  | andb ?x _ => split_bool x
  | orb ?x _ => split_bool x
  | _ => destruct b eqn:?
  end.

Ltac split_test :=
  match goal with
  | |- context [if ?b then _ else _] => split_bool b
  | |- context [match ?o with Some _ => _ | None => _ end] => destruct o eqn:?
  end; cbn in *.

Ltac crunch := unfold_ops; cbn in *; repeat split_test.

(** A run is its three parts. *)
Lemma run_eq {A : Type} (r : A * Manager * list Effect) a m fx :
  result r = a -> after r = m -> effects r = fx -> r = (a, m, fx).
Proof.
  destruct r as [[a' m'] fx']; unfold result, after, effects; cbn.
  intros -> -> ->. reflexivity.
Qed.

(* ------------------------------------------------------------------ *)
(** ** closeServer *)

(** C7. [closeServer] answers whether the server was running. When it was, it
    stops the server, closes the live preview session if there is one (whose
    disposal sets the keep-alive timer), stops the task if one is running and
    marks the connection manager disconnected, in that order, and the server
    is stopped afterwards. When it was not, nothing is called and the state is
    untouched. *)
Theorem closeServer_teardown_iff_running (m : Manager) :
  result (closeServer m) = Server.isRunning (_server m) /\
  effects (closeServer m) =
    (if Server.isRunning (_server m) then
       [ServerCloseServer]
       ++ match currentPanel m with
          | Some bp =>
              PreviewClose bp ::
              (if is_live bp (Host.sessions (host m)) then
                 [SetTimeout (Host.nextTimer (host m))
                    (keepAliveMs (serverKeepAliveAfterEmbeddedPreviewClose
                                    (Host.config (host m))))]
               else [])
          | None => []
          end
       ++ (if ServerTaskProvider.isRunning (_serverTaskProvider m)
           then [TaskServerStop true] else [])
       ++ [ConnDisconnected]
     else []) /\
  (if Server.isRunning (_server m) then
     Server.isRunning (_server (after (closeServer m))) = false
   else after (closeServer m) = m).
Proof.
  destruct m as [cp srv task pa ct nl ep ws cm pl rt h].
  destruct srv as [running sr]; destruct task as [trun].
  unfold_ops; cbn.
  destruct running; cbn; [| repeat split; reflexivity].
  destruct cp as [bp|]; cbn.
  - destruct (is_live bp (Host.sessions h)); cbn;
      destruct trun; cbn; repeat split; reflexivity.
  - destruct trun; cbn; repeat split; reflexivity.
Qed.

(* ------------------------------------------------------------------ *)
(** ** openServer *)

(** C6. With the server stopped, [openServer] asks the server to start on the
    current port and returns its answer. With the server running it returns
    true; for [fromTask] it asks for the external URI, and when that arrives
    the task provider is told [STARTED_BY_EMBEDDED_PREV]; without [fromTask]
    it does nothing. No handler other than the one of the connected event ever
    reports [JUST_STARTED]. *)
Theorem openServer_result_and_status (fromTask : bool) (m : Manager) :
  openServer fromTask m =
    (if Server.isRunning (_server m) then
       if fromTask then (true, add_uriWaiter m, [ConnResolveExternalHTTPUri])
       else (true, m, [])
     else
       (Server.startResult (_server m) (ConnectionManager.httpPort (_connectionManager m)),
        m,
        [ServerOpenServer (ConnectionManager.httpPort (_connectionManager m))])) /\
  (forall uri,
     step (ExternalUriResolved uri) (add_uriWaiter m) =
       Some (m, [TaskServerStarted uri STARTED_BY_EMBEDDED_PREV])) /\
  (forall e m' uri,
     In (TaskServerStarted uri JUST_STARTED) (effects (handle e m')) ->
     e = Connected uri).
Proof.
  split; [| split].
  - destruct m as [cp [running sr] task pa ct nl ep ws cm pl rt h].
    unfold_ops; cbn. destruct running, fromTask; reflexivity.
  - intros uri.
    destruct m as [cp srv task pa ct nl ep ws [hp pp uw] pl rt h].
    reflexivity.
  - intros e m' uri.
    destruct e; crunch; cbn; intuition (try discriminate).
    all: match goal with
         | H : TaskServerStarted _ _ = TaskServerStarted _ _ |- _ =>
             injection H as ->; reflexivity
         end.
Qed.

Lemma openServer_status_witness :
  In (TaskServerStarted "http://127.0.0.1:3000" JUST_STARTED)
     (effects (handle (Connected "http://127.0.0.1:3000") Sample.fresh)) /\
  Connected "http://127.0.0.1:3000" = Connected "http://127.0.0.1:3000".
Proof.
  split; [left; reflexivity |].
  apply (proj2 (proj2 (openServer_result_and_status true Sample.fresh))
           (Connected "http://127.0.0.1:3000") Sample.fresh
           "http://127.0.0.1:3000"%string).
  left; reflexivity.
Defined.

(* ------------------------------------------------------------------ *)
(** ** The invariant of the coordinator *)

Lemma Inv_initial cfg ws ep startResult taskRunning :
  Inv (initial cfg ws ep startResult taskRunning).
Proof.
  split; cbn; [reflexivity | auto].
Qed.

Ltac absurd_handle :=
  match goal with
  | H : Some ?a = Some ?b, E : Nat.eqb ?a ?b = false |- _ =>
      injection H as H; rewrite H, Nat.eqb_refl in E; discriminate E
  end.

Ltac inv_goal :=
  first
    [ absurd_handle
    | split; cbn;
      [ first [ assumption | reflexivity | discriminate
              | intros _; reflexivity
              | intros H; exfalso; apply H; reflexivity ]
      | solve [eauto 8] ] ].

Lemma step_Inv e m m' fx : Inv m -> step e m = Some (m', fx) -> Inv m'.
Proof.
  intros [Hp Hs] Hstep.
  destruct m as [cp [running sr] [trun] pa ct nl ep ws cm pl rt
                    [cfg ts nt ss ns np ow]].
  cbn in Hp, Hs.
  destruct cp as [cur|].
  - destruct Hs as (-> & -> & ->).
    destruct e; revert Hstep; crunch; intros Hstep;
      try discriminate; injection Hstep as <- <-; inv_goal.
  - destruct Hs as (-> & [(-> & ->) | (id & ms & -> & -> & ->)]).
    + destruct e; revert Hstep; crunch; intros Hstep;
      try discriminate; injection Hstep as <- <-; inv_goal.
    + destruct e; revert Hstep; crunch; intros Hstep;
      try discriminate; injection Hstep as <- <-; inv_goal.
Qed.

Theorem reachable_Inv m : reachable m -> Inv m.
Proof.
  induction 1 as [cfg ws ep sr tr | e m m' fx _ IH Hstep].
  - apply Inv_initial.
  - exact (step_Inv e m m' fx IH Hstep).
Qed.

Lemma run_reachable es : forall m m' fx,
  reachable m -> run es m = Some (m', fx) -> reachable m'.
Proof.
  induction es as [| e rest IH]; cbn; intros m m' fx Hm Hrun.
  - injection Hrun as <- _. exact Hm.
  - destruct (step e m) as [[m1 fx1] |] eqn:Hstep; [| discriminate].
    destruct (run rest m1) as [[m2 fx2] |] eqn:Hrest; [| discriminate].
    injection Hrun as <- _.
    eapply IH; [| exact Hrest].
    eapply reachable_step; eassumption.
Qed.

(* ------------------------------------------------------------------ *)
(** ** The pending launch intent *)

(** With the server stopped, an embedded-preview request stores its intent and
    asks the server to start; nothing else changes. *)
Lemma createOrShowEmbeddedPreview_stopped panel file relative m :
  Server.isRunning (_server m) = false ->
  createOrShowEmbeddedPreview panel file relative m =
    (tt,
     set_pendingLaunchInfo (Some (mkLaunchInfo false file relative panel)) m,
     [ServerOpenServer (ConnectionManager.httpPort (_connectionManager m))]).
Proof.
  destruct m as [cp [running sr] task pa ct nl ep ws cm pl rt h]; cbn.
  intros ->. reflexivity.
Qed.

(** The connected handler consumes whatever intent is stored. *)
Lemma connected_clears_pending uri m :
  _pendingLaunchInfo (after (handle (Connected uri) m)) = None.
Proof.
  destruct m as [cp [running sr] task pa ct nl ep ws cm pl rt h].
  crunch; reflexivity.
Qed.

(** Only the connected event empties the slot. *)
Lemma only_connected_consumes e m m' fx :
  step e m = Some (m', fx) ->
  _pendingLaunchInfo m <> None ->
  _pendingLaunchInfo m' = None ->
  exists uri, e = Connected uri.
Proof.
  destruct m as [cp [running sr] task pa ct nl ep ws cm pl rt h].
  intros Hstep Hsome Hnone; cbn in Hsome.
  destruct e; try (eexists; reflexivity); exfalso;
    revert Hstep Hnone; crunch; intros Hstep Hnone;
    try discriminate; injection Hstep as <- <-; cbn in Hnone;
    try discriminate; auto.
Qed.

(** A connected event creates at most one preview. *)
Lemma connected_at_most_one_preview uri m :
  (count_previews (effects (handle (Connected uri) m)) <= 1)%nat.
Proof.
  destruct m as [cp [running sr] task pa ct nl ep ws cm pl rt h].
  crunch; cbn; lia.
Qed.

(** An intent appears only through a launch request. *)
Lemma only_requests_store e m m' fx :
  step e m = Some (m', fx) ->
  _pendingLaunchInfo m = None ->
  _pendingLaunchInfo m' <> None ->
  (exists p f r, e = CallCreateOrShowEmbeddedPreview p f r) \/
  (exists f r, e = CallShowPreviewInBrowser f r).
Proof.
  destruct m as [cp [running sr] task pa ct nl ep ws cm pl rt h].
  intros Hstep Hnone Hsome; cbn in Hnone; subst pl.
  destruct e;
    try (left; do 3 eexists; reflexivity);
    try (right; do 2 eexists; reflexivity);
    exfalso; revert Hstep Hsome; crunch; intros Hstep Hsome;
    try discriminate; injection Hstep as <- <-; cbn in Hsome;
    apply Hsome; reflexivity.
Qed.

(** C1. The pending launch intent is one slot. In every state a coordinator
    can be in, an intent is stored only while the server is stopped; it gets
    there only through a launch request; the only event that empties the slot
    is the connected event, whose handler always leaves it empty, so a second
    connected event dispatches nothing. When two embedded-preview requests A
    and B arrive before the server connects, the state is the one B alone
    would have left: the slot holds B's intent, the connected event dispatches
    B's launch only, creates at most one preview, and a preview it creates
    shows B's file in B's panel. *)
Theorem pending_intent_single_slot_last_write_wins :
  (forall m, reachable m ->
     _pendingLaunchInfo m <> None -> Server.isRunning (_server m) = false) /\
  (forall e m m' fx,
     step e m = Some (m', fx) ->
     _pendingLaunchInfo m = None -> _pendingLaunchInfo m' <> None ->
     (exists p f r, e = CallCreateOrShowEmbeddedPreview p f r) \/
     (exists f r, e = CallShowPreviewInBrowser f r)) /\
  (forall e m m' fx,
     step e m = Some (m', fx) ->
     _pendingLaunchInfo m <> None -> _pendingLaunchInfo m' = None ->
     exists uri, e = Connected uri) /\
  (forall uri m, _pendingLaunchInfo (after (handle (Connected uri) m)) = None) /\
  (forall uri m,
     _pendingLaunchInfo m = None ->
     effects (handle (Connected uri) m) = [TaskServerStarted uri JUST_STARTED]) /\
  (forall m pA fA rA pB fB rB uri,
     Server.isRunning (_server m) = false ->
     let mA := after (createOrShowEmbeddedPreview pA fA rA m) in
     let mAB := after (createOrShowEmbeddedPreview pB fB rB mA) in
     mAB = after (createOrShowEmbeddedPreview pB fB rB m) /\
     _pendingLaunchInfo mAB = Some (mkLaunchInfo false fB rB pB) /\
     effects (handle (Connected uri) mAB) =
       TaskServerStarted uri JUST_STARTED ::
       effects (launchFileInEmbeddedPreview fB rB pB (after (serverConnected mAB))) /\
     (count_previews (effects (handle (Connected uri) mAB)) <= 1)%nat /\
     (forall bp,
        In (NewBrowserPreview bp) (effects (handle (Connected uri) mAB)) ->
        bp_file bp = result (transformNonRelativeFile rB fB mAB) /\
        (forall p, pB = Some p -> bp_panel bp = p))).
Proof.
  split; [| split; [| split; [| split; [| split]]]].
  - intros m Hm. exact (inv_pending m (reachable_Inv m Hm)).
  - exact only_requests_store.
  - exact only_connected_consumes.
  - exact connected_clears_pending.
  - intros uri m Hnone.
    destruct m as [cp [running sr] task pa ct nl ep ws cm pl rt h].
    cbn in Hnone; subst pl. reflexivity.
  - intros m pA fA rA pB fB rB uri Hstopped mA mAB.
    assert (HA : mA = set_pendingLaunchInfo (Some (mkLaunchInfo false fA rA pA)) m).
    { unfold mA. rewrite createOrShowEmbeddedPreview_stopped by exact Hstopped.
      reflexivity. }
    assert (HAB : mAB = set_pendingLaunchInfo (Some (mkLaunchInfo false fB rB pB)) m).
    { unfold mAB. rewrite createOrShowEmbeddedPreview_stopped.
      - rewrite HA. reflexivity.
      - rewrite HA. exact Hstopped. }
    split; [| split; [| split; [| split]]].
    + rewrite HAB, createOrShowEmbeddedPreview_stopped by exact Hstopped.
      reflexivity.
    + rewrite HAB. reflexivity.
    + rewrite HAB.
      unfold handle, onConnectedHandler, serverConnected, after, effects,
        bind, emit, modify, get; cbn.
      rewrite app_nil_r. reflexivity.
    + apply connected_at_most_one_preview.
    + rewrite HAB. clear HA HAB mA mAB Hstopped.
      destruct m as [cp [running sr] task pa ct nl ep ws cm pl rt h].
      intros bp. crunch; cbn; intuition (try discriminate);
        match goal with
        | H : NewBrowserPreview _ = NewBrowserPreview _ |- _ =>
            injection H as <-; try reflexivity
        end;
        match goal with
        | H : Some _ = Some _ |- _ => injection H as <-; reflexivity
        | H : None = Some _ |- _ => discriminate H
        end.
Qed.

(** The slot after two requests on a fresh coordinator. *)
Lemma pending_intent_witness :
  Server.isRunning (_server Sample.fresh) = false /\
  effects (handle (Connected "http://127.0.0.1:3000") Sample.fresh)
    = [TaskServerStarted "http://127.0.0.1:3000" JUST_STARTED] /\
  _pendingLaunchInfo
    (after (createOrShowEmbeddedPreview None "/b.html" true
       (after (createOrShowEmbeddedPreview (Some (HostPanel 7)) "/a.html" true
                 Sample.fresh))))
  = Some (mkLaunchInfo false "/b.html" true None).
Proof.
  split; [reflexivity |].
  split.
  { exact (proj1 (proj2 (proj2 (proj2 (proj2
             pending_intent_single_slot_last_write_wins))))
             "http://127.0.0.1:3000"%string Sample.fresh eq_refl). }
  exact (proj1 (proj2
    (proj2 (proj2 (proj2 (proj2 (proj2 pending_intent_single_slot_last_write_wins))))
       Sample.fresh (Some (HostPanel 7)) "/a.html"%string true
       None "/b.html"%string true "http://127.0.0.1:3000"%string eq_refl))).
Defined.

(* ------------------------------------------------------------------ *)
(** ** Several requests before the server connects *)

Lemma step_createOrShow_stopped panel file relative m :
  Server.isRunning (_server m) = false ->
  step (CallCreateOrShowEmbeddedPreview panel file relative) m =
    Some (set_pendingLaunchInfo (Some (mkLaunchInfo false file relative panel)) m,
          [ServerOpenServer (ConnectionManager.httpPort (_connectionManager m))]).
Proof.
  intros Hstopped. unfold step, handle, enabled.
  rewrite createOrShowEmbeddedPreview_stopped by exact Hstopped. reflexivity.
Qed.

Lemma embeddedCalls_stopped cs : forall m,
  Server.isRunning (_server m) = false ->
  exists m1 fx1,
    run (embeddedCalls cs) m = Some (m1, fx1) /\
    Server.isRunning (_server m1) = false /\
    count_starts fx1 = List.length cs /\
    count_previews fx1 = 0%nat.
Proof.
  induction cs as [| [[p f] r] rest IH]; intros m Hstopped.
  - exists m, []. repeat split; exact Hstopped.
  - change (embeddedCalls ((p, f, r) :: rest))
      with (CallCreateOrShowEmbeddedPreview p f r :: embeddedCalls rest).
    cbn [run].
    rewrite step_createOrShow_stopped by exact Hstopped.
    destruct (IH (set_pendingLaunchInfo (Some (mkLaunchInfo false f r p)) m))
      as (m1 & fx1 & Hrun & Hs & Hc & Hp).
    { destruct m as [cp [running sr] task pa ct nl ep ws cm pl rt h]; exact Hstopped. }
    rewrite Hrun. exists m1, (ServerOpenServer
      (ConnectionManager.httpPort (_connectionManager m)) :: fx1).
    repeat split; [exact Hs | | exact Hp].
    unfold count_starts in *; cbn. rewrite Hc. reflexivity.
Qed.

(** C2, as the code has it. Every [createOrShowEmbeddedPreview] call made
    while the server is stopped asks the server to start once more, so [n]
    calls issue [n] start requests (not one); none of them creates a preview,
    and the connected event that follows creates at most one. *)
Theorem one_start_request_per_call_one_preview
    (cs : list (option WebviewPanel * string * bool)) (m : Manager) (uri : string) :
  Server.isRunning (_server m) = false ->
  exists m1 fx1 m2 fx2,
    run (embeddedCalls cs) m = Some (m1, fx1) /\
    count_starts fx1 = List.length cs /\
    count_previews fx1 = 0%nat /\
    step (Connected uri) m1 = Some (m2, fx2) /\
    (count_previews fx2 <= 1)%nat.
Proof.
  intros Hstopped.
  destruct (embeddedCalls_stopped cs m Hstopped) as (m1 & fx1 & Hrun & _ & Hc & Hp).
  exists m1, fx1, (after (handle (Connected uri) m1)),
    (effects (handle (Connected uri) m1)).
  repeat split; try assumption.
  apply connected_at_most_one_preview.
Qed.

Lemma one_start_request_per_call_witness :
  exists m1 fx1 m2 fx2,
    run (embeddedCalls [(None, "/a.html"%string, true); (None, "/b.html"%string, true)])
        Sample.fresh = Some (m1, fx1) /\
    count_starts fx1 = 2%nat /\
    count_previews fx1 = 0%nat /\
    step (Connected "http://127.0.0.1:3000") m1 = Some (m2, fx2) /\
    (count_previews fx2 <= 1)%nat.
Proof.
  exact (one_start_request_per_call_one_preview
           [(None, "/a.html"%string, true); (None, "/b.html"%string, true)]
           Sample.fresh "http://127.0.0.1:3000"%string eq_refl).
Defined.

(** C2 as stated fails: two requests before the server connects issue two
    start requests. *)
Lemma two_requests_two_starts :
  Server.isRunning (_server Sample.fresh) = false /\
  option_map (fun r => count_starts (snd r))
    (run [CallCreateOrShowEmbeddedPreview None "/a.html" true;
          CallCreateOrShowEmbeddedPreview None "/b.html" true] Sample.fresh)
  = Some 2%nat /\
  2%nat <> 1%nat.
Proof.
  split; [reflexivity | split; [reflexivity | discriminate]].
Qed.

(* ------------------------------------------------------------------ *)
(** ** The previewActive flag *)

Lemma dispose_keeps_previewActive bp m m' fx :
  Inv m ->
  step (PanelDisposed bp) m = Some (m', fx) ->
  currentPanel m' = None /\
  Host.sessions (host m') = [] /\
  _previewActive m' = true /\
  handle RequestToCloseServer m' = (tt, m', [TaskServerStop false]).
Proof.
  intros [Hp Hs] Hstep.
  destruct m as [cp [running sr] [trun] pa ct nl ep ws cm pl rt
                    [cfg ts nt ss ns np ow]].
  cbn in Hp, Hs.
  destruct cp as [cur|].
  - destruct Hs as (-> & -> & ->).
    revert Hstep; crunch; intros Hstep; try discriminate;
      injection Hstep as <- <-; repeat split.
  - destruct Hs as (-> & _). discriminate Hstep.
Qed.

Lemma timer_clears_previewActive id m :
  _previewActive (after (handle (TimerFired id) m)) = false.
Proof.
  destruct m as [cp [running sr] [trun] pa ct nl ep ws cm pl rt h].
  crunch; reflexivity.
Qed.

(** C3, as the code has it. In every state a coordinator can be in,
    [_previewActive] is set exactly when a preview session is referenced or
    the keep-alive timer of the last disposal is still pending; the referenced
    session is the only live one. Disposal of the panel leaves the flag set:
    a close request of the task provider arriving then only calls
    [serverStop(false)] and changes nothing. The flag is cleared when the
    timer fires. *)
Theorem previewActive_iff_session_or_keepalive (m : Manager) :
  reachable m ->
  (_previewActive m = true <->
     (currentPanel m <> None \/ Host.timers (host m) <> [])) /\
  (forall bp, currentPanel m = Some bp <-> Host.sessions (host m) = [bp]) /\
  (forall bp m' fx,
     step (PanelDisposed bp) m = Some (m', fx) ->
     currentPanel m' = None /\
     Host.sessions (host m') = [] /\
     _previewActive m' = true /\
     handle RequestToCloseServer m' = (tt, m', [TaskServerStop false])) /\
  (forall id, _previewActive (after (handle (TimerFired id) m)) = false).
Proof.
  intros Hm. pose proof (reachable_Inv m Hm) as HI.
  destruct HI as [Hp Hs].
  split; [| split; [| split]].
  - destruct (currentPanel m) as [cur|].
    + destruct Hs as (_ & _ & ->). split; [left; discriminate | reflexivity].
    + destruct Hs as (_ & [(-> & ->) | (id & ms & -> & _ & ->)]).
      * split; [discriminate | intros [H | H]; exfalso; apply H; reflexivity].
      * split; [right; discriminate | reflexivity].
  - intros bp. destruct (currentPanel m) as [cur|].
    + destruct Hs as (-> & _). split; intros [= ->]; reflexivity.
    + destruct Hs as (-> & _). split; discriminate.
  - intros bp m' fx. apply dispose_keeps_previewActive. split; assumption.
  - intros id. apply timer_clears_previewActive.
Qed.

Lemma previewing_reachable : reachable previewing.
Proof.
  eapply reachable_step with (e := Connected "http://127.0.0.1:3000")
                             (fx := effects (handle (Connected "http://127.0.0.1:3000")
    (after (handle (CallCreateOrShowEmbeddedPreview None "/" true) Sample.fresh)))).
  - eapply reachable_step with (e := CallCreateOrShowEmbeddedPreview None "/" true)
     (fx := effects (handle (CallCreateOrShowEmbeddedPreview None "/" true) Sample.fresh)).
    + apply reachable_initial.
    + reflexivity.
  - reflexivity.
Qed.

Lemma previewActive_iff_witness :
  (_previewActive previewing = true <->
   (currentPanel previewing <> None \/ Host.timers (host previewing) <> [])) /\
  _previewActive panelClosed = true.
Proof.
  split.
  - exact (proj1 (previewActive_iff_session_or_keepalive previewing previewing_reachable)).
  - exact (proj1 (proj2 (proj2
      (proj1 (proj2 (proj2
         (previewActive_iff_session_or_keepalive previewing previewing_reachable)))
         (mkBrowserPreview 0 "/" (CreatedPanel 0)) panelClosed
         (effects (handle (PanelDisposed (mkBrowserPreview 0 "/" (CreatedPanel 0)))
                     previewing))
         eq_refl)))).
Defined.

(** C3 as stated fails: after the panel is disposed and before the timer
    fires, no session exists and yet the flag is set, and a close request of
    the task provider leaves the server running. *)
Lemma previewActive_outlives_session :
  option_map fst
    (run [CallCreateOrShowEmbeddedPreview None "/" true;
          Connected "http://127.0.0.1:3000";
          PanelDisposed (mkBrowserPreview 0 "/" (CreatedPanel 0))] Sample.fresh)
    = Some panelClosed /\
  currentPanel panelClosed = None /\
  Host.sessions (host panelClosed) = [] /\
  _previewActive panelClosed = true /\
  effects (handle RequestToCloseServer panelClosed) = [TaskServerStop false] /\
  Server.isRunning (_server (after (handle RequestToCloseServer panelClosed))) = true.
Proof.
  repeat apply conj; vm_compute; reflexivity.
Qed.

(* ------------------------------------------------------------------ *)
(** ** showPreviewInBrowser when the server fails to start *)

(** C4, as the code has it. With no task running, the server stopped and the
    task route not taken (no workspace, or run-as-task off), a failing server
    start leaves the request without any launch: the only call made is the
    start request itself, no panel or session appears and the server stays
    stopped. The method returns nothing: its result is the same void value
    as on every other path. *)
Theorem showPreviewInBrowser_failed_start (file : string) (relative : bool) (m : Manager) :
  ServerTaskProvider.isRunning (_serverTaskProvider m) = false ->
  Server.isRunning (_server m) = false ->
  truthy (WorkspaceManager.workspace (_workspaceManager m))
    && _runTaskWithExternalPreview m = false ->
  Server.startResult (_server m) (ConnectionManager.httpPort (_connectionManager m))
    = false ->
  result (openServer false m) = false /\
  result (showPreviewInBrowser file relative m) = tt /\
  effects (showPreviewInBrowser file relative m) =
    [ServerOpenServer (ConnectionManager.httpPort (_connectionManager m))] /\
  currentPanel (after (showPreviewInBrowser file relative m)) = currentPanel m /\
  Host.sessions (host (after (showPreviewInBrowser file relative m)))
    = Host.sessions (host m) /\
  Server.isRunning (_server (after (showPreviewInBrowser file relative m))) = false.
Proof.
  destruct m as [cp [running sr] [trun] pa ct nl ep ws cm pl rt h]; cbn.
  intros -> -> Hroute Hfail.
  unfold_ops; cbn. rewrite Hroute; cbn. rewrite !Hfail; cbn.
  repeat apply conj; reflexivity.
Qed.

Lemma showPreviewInBrowser_failed_start_witness :
  effects (showPreviewInBrowser "/index.html" true Sample.failing)
    = [ServerOpenServer 3000].
Proof.
  exact (proj1 (proj2 (proj2
    (showPreviewInBrowser_failed_start "/index.html" true Sample.failing
       eq_refl eq_refl eq_refl eq_refl)))).
Defined.

(** C4 as stated fails: the intent of the failed request stays in the slot and
    is dispatched by the next connected event, and the method has no boolean
    to return. *)
Lemma failed_start_intent_dispatched_later :
  result (showPreviewInBrowser "/index.html" true Sample.failing) = tt /\
  _pendingLaunchInfo (after (showPreviewInBrowser "/index.html" true Sample.failing))
    = Some (mkLaunchInfo true "/index.html" true None) /\
  option_map snd
    (run [CallShowPreviewInBrowser "/index.html" true;
          ServerStartResultChanged (fun _ => true);
          RequestToOpenServer;
          Connected "http://127.0.0.1:3000"] Sample.failing)
  = Some [ServerOpenServer 3000;
          ServerOpenServer 3000;
          TaskServerStarted "http://127.0.0.1:3000" JUST_STARTED;
          OpenExternal (mkExternalUri 3000 "/index.html")].
Proof.
  repeat apply conj; vm_compute; reflexivity.
Qed.

(* ------------------------------------------------------------------ *)
(** ** The keep-alive timer *)

Lemma all_from_spec (k : nat) : forall (z : Z) (P : Z -> bool),
  all_from k z P = true ->
  forall n : Z, (z <= n < z + Z.of_nat k)%Z -> P n = true.
Proof.
  induction k as [| k' IH]; intros z P Hall n Hn.
  - cbn in Hn. lia.
  - cbn [all_from] in Hall. apply andb_true_iff in Hall. destruct Hall as [Hz Hrest].
    destruct (Z.eq_dec n z) as [-> | Hne]; [exact Hz |].
    apply (IH (z + 1)%Z P Hrest). lia.
Qed.

Lemma jsInteger_eqb_eq (a b : JsInteger) : jsInteger_eqb a b = true -> a = b.
Proof.
  destruct a as [x | s |], b as [y | t |]; cbn; try discriminate.
  - intros H. apply Z.eqb_eq in H. now subst.
  - intros H. apply Bool.eqb_prop in H. now subst.
  - reflexivity.
Qed.

(** For a whole number of minutes up to 100000 the delay is that many times
    60 seconds. *)
Lemma keepAliveMs_whole_minutes (n : Z) :
  (0 <= n <= 100000)%Z ->
  keepAliveMs (number_of_Z n) = JsInt (n * 60 * 1000).
Proof.
  intros Hn. apply jsInteger_eqb_eq.
  apply (all_from_spec (Z.to_nat 100001) 0%Z
           (fun n => jsInteger_eqb (keepAliveMs (number_of_Z n)) (JsInt (n * 60 * 1000)))).
  - vm_compute. reflexivity.
  - rewrite Z2Nat.id by lia. lia.
Qed.

Lemma reachable_at_most_one_timer m :
  reachable m -> (List.length (Host.timers (host m)) <= 1)%nat.
Proof.
  intros Hm. destruct (reachable_Inv m Hm) as [_ Hs].
  destruct (currentPanel m).
  - destruct Hs as (_ & -> & _). cbn; lia.
  - destruct Hs as (_ & [(-> & _) | (id & ms & -> & _)]); cbn; lia.
Qed.

Lemma timer_fired_closes_iff id m :
  In ServerCloseServer (effects (handle (TimerFired id) m)) <->
  (Server.isRunning (_server m) = true /\
   ServerTaskProvider.isRunning (_serverTaskProvider m) = false /\
   WorkspaceManager.workspace (_workspaceManager m) <> None /\
   _runTaskWithExternalPreview m = true).
Proof.
  destruct m as [cp [running sr] [trun] pa ct nl ep
                    [w inD inA rel] cm pl rt h].
  destruct running, trun, w, rt; crunch; cbn;
    intuition (try discriminate; try congruence).
Qed.

Lemma same_session_refl bp : same_session bp bp = true.
Proof. unfold same_session. apply Nat.eqb_refl. Qed.

Lemma panelClosed_reachable : reachable panelClosed.
Proof.
  eapply reachable_step with
    (e := PanelDisposed (mkBrowserPreview 0 "/" (CreatedPanel 0)))
    (fx := effects (handle (PanelDisposed (mkBrowserPreview 0 "/" (CreatedPanel 0)))
                      previewing)).
  - exact previewing_reachable.
  - reflexivity.
Qed.

(** With the server up, an embedded-preview request clears the pending timer. *)
Lemma request_clears_pending_timer m id ms p f r :
  Inv m ->
  Host.timers (host m) = [(id, ms)] ->
  Server.isRunning (_server m) = true ->
  let call := handle (CallCreateOrShowEmbeddedPreview p f r) m in
  In (ClearTimeout id) (effects call) /\
  ~ In ServerCloseServer (effects call) /\
  Host.timers (host (after call)) = [] /\
  enabled (TimerFired id) (after call) = false /\
  Server.isRunning (_server (after call)) = true.
Proof.
  intros [_ Hs] Hts Hrun call. subst call.
  destruct m as [cp [running sr] [trun] pa ct nl ep ws cm pl rt
                    [cfg ts nt ss ns np ow]].
  cbn in Hs, Hts, Hrun. subst ts running.
  destruct cp as [cur|]; [destruct Hs as (_ & Hs & _); discriminate Hs |].
  destruct Hs as (-> & [(Hs & _) | (id' & ms' & Hs & -> & ->)]);
    [discriminate Hs |].
  injection Hs as <- <-.
  crunch; try absurd_handle; rewrite ?Nat.eqb_refl in *; try discriminate; cbn;
    repeat apply conj; try reflexivity; auto 8;
    solve [intuition discriminate].
Qed.

(** With the server stopped, the request only stores its intent: the timer
    stays pending until the connected event launches the preview. *)
Lemma request_while_stopped_keeps_timer m id ms p f r :
  Inv m ->
  Host.timers (host m) = [(id, ms)] ->
  Server.isRunning (_server m) = false ->
  let call := handle (CallCreateOrShowEmbeddedPreview p f r) m in
  effects call = [ServerOpenServer (ConnectionManager.httpPort (_connectionManager m))] /\
  Host.timers (host (after call)) = [(id, ms)] /\
  (forall uri,
     Host.timers (host (after (handle (Connected uri) (after call)))) = []).
Proof.
  intros [_ Hs] Hts Hrun call. subst call.
  destruct m as [cp [running sr] [trun] pa ct nl ep ws cm pl rt
                    [cfg ts nt ss ns np ow]].
  cbn in Hs, Hts, Hrun. subst ts running.
  destruct cp as [cur|]; [destruct Hs as (_ & Hs & _); discriminate Hs |].
  destruct Hs as (-> & [(Hs & _) | (id' & ms' & Hs & -> & ->)]);
    [discriminate Hs |].
  injection Hs as <- <-.
  repeat apply conj; try reflexivity.
  intros uri.
  crunch; try absurd_handle; rewrite ?Nat.eqb_refl in *; try discriminate;
    reflexivity.
Qed.

(** C5, as the code has it. In a state a coordinator can be in, with [bp] the
    session on show: its disposal leaves the server as it is and sets one
    timer, whose delay is [Math.floor(minutes * 1000 * 60)] computed in JS
    numbers (for a whole number of minutes up to 100000, that many times 60
    seconds), and which is then the only pending one; no reachable state has
    two timers pending. An embedded-preview request that finds a timer
    pending and the server up clears that timer without closing the server,
    which stays up, and the timer can no longer fire; one that finds the
    server stopped only asks for a start, and the timer stays pending until
    the connected event launches the preview. When a timer fires, the server
    is closed exactly when it is running, no task is running, a workspace is
    open and run-as-task is on; [_previewActive] is cleared either way. *)
Theorem keepalive_timer_lifecycle (m : Manager) (bp : BrowserPreview) :
  reachable m ->
  currentPanel m = Some bp ->
  let d := serverKeepAliveAfterEmbeddedPreviewClose (Host.config (host m)) in
  let id := Host.nextTimer (host m) in
  let m1 := after (handle (PanelDisposed bp) m) in
  step (PanelDisposed bp) m = Some (m1, [SetTimeout id (keepAliveMs d)]) /\
  Host.timers (host m1) = [(id, keepAliveMs d)] /\
  _server m1 = _server m /\
  keepAliveMs d = Math_floor (jsMul (jsMul d (number_of_Z 1000)) (number_of_Z 60)) /\
  (forall n : Z, (0 <= n <= 100000)%Z ->
     keepAliveMs (number_of_Z n) = JsInt (n * 60 * 1000)) /\
  (forall m', reachable m' -> (List.length (Host.timers (host m')) <= 1)%nat) /\
  (forall m' id' ms p f r,
     reachable m' ->
     Host.timers (host m') = [(id', ms)] ->
     let call := handle (CallCreateOrShowEmbeddedPreview p f r) m' in
     (Server.isRunning (_server m') = true ->
      In (ClearTimeout id') (effects call) /\
      ~ In ServerCloseServer (effects call) /\
      Host.timers (host (after call)) = [] /\
      enabled (TimerFired id') (after call) = false /\
      Server.isRunning (_server (after call)) = true) /\
     (Server.isRunning (_server m') = false ->
      effects call =
        [ServerOpenServer (ConnectionManager.httpPort (_connectionManager m'))] /\
      Host.timers (host (after call)) = [(id', ms)] /\
      (forall uri,
         Host.timers (host (after (handle (Connected uri) (after call)))) = []))) /\
  (forall m' id',
     _previewActive (after (handle (TimerFired id') m')) = false /\
     (In ServerCloseServer (effects (handle (TimerFired id') m')) <->
      (Server.isRunning (_server m') = true /\
       ServerTaskProvider.isRunning (_serverTaskProvider m') = false /\
       WorkspaceManager.workspace (_workspaceManager m') <> None /\
       _runTaskWithExternalPreview m' = true))).
Proof.
  intros Hm Hcp d id m1.
  destruct (reachable_Inv m Hm) as [_ Hs].
  rewrite Hcp in Hs. destruct Hs as (Hss & Hts & Hpa).
  subst d id m1.
  destruct m as [cp [running sr] [trun] pa ct nl ep ws cm pl rt
                    [cfg ts nt ss ns np ow]].
  cbn in Hcp, Hss, Hts, Hpa. subst cp ss ts pa.
  repeat apply conj.
  - unfold_ops; cbn. rewrite ?same_session_refl, ?Nat.eqb_refl; cbn. reflexivity.
  - unfold_ops; cbn. rewrite ?same_session_refl, ?Nat.eqb_refl; cbn. reflexivity.
  - unfold_ops; cbn. rewrite ?same_session_refl, ?Nat.eqb_refl; cbn. reflexivity.
  - reflexivity.
  - exact keepAliveMs_whole_minutes.
  - exact reachable_at_most_one_timer.
  - intros m' id' ms p f r Hm' Hts'. split; intros Hrun.
    + exact (request_clears_pending_timer m' id' ms p f r
               (reachable_Inv m' Hm') Hts' Hrun).
    + exact (request_while_stopped_keeps_timer m' id' ms p f r
               (reachable_Inv m' Hm') Hts' Hrun).
  - intros m' id'. split.
    + apply timer_clears_previewActive.
    + apply timer_fired_closes_iff.
Qed.

Lemma keepalive_timer_witness :
  Host.timers (host panelClosed) = [(0%nat, JsInt 180000)] /\
  Host.timers
    (host (after (handle (CallCreateOrShowEmbeddedPreview None "/" true) panelClosed)))
    = [] /\
  keepAliveMs (number_of_Z 3) = JsInt (3 * 60 * 1000).
Proof.
  pose proof (keepalive_timer_lifecycle previewing
                (mkBrowserPreview 0 "/" (CreatedPanel 0))
                previewing_reachable eq_refl) as H.
  destruct H as (_ & H2 & _ & _ & H5 & _ & H7 & _).
  repeat apply conj.
  - exact H2.
  - refine (proj1 (proj2 (proj2
      (proj1 (H7 panelClosed 0%nat (JsInt 180000) None "/"%string true
                 panelClosed_reachable _) eq_refl)))).
    exact H2.
  - apply H5. lia.
Defined.

(** C5 as stated fails twice. For a setting of 1.001 minutes the delay is
    60059 ms, not 60.06 s. And when the preview was disposed by
    [closeServer()], a new embedded-preview request finds the server stopped:
    it clears no timer, and the timer is still pending after it. *)
Lemma keepalive_timer_rounded_and_not_cleared :
  keepAliveMs (number_of_decimal 1001 1000) = JsInt 60059 /\
  (60059 * 1000 <> 1001 * 60 * 1000)%Z /\
  Host.timers (host serverClosed) = [(0%nat, JsInt 180000)] /\
  Server.isRunning (_server serverClosed) = false /\
  effects (handle (CallCreateOrShowEmbeddedPreview None "/" true) serverClosed)
    = [ServerOpenServer 3000] /\
  Host.timers
    (host (after (handle (CallCreateOrShowEmbeddedPreview None "/" true) serverClosed)))
    = [(0%nat, JsInt 180000)].
Proof.
  repeat apply conj; try (vm_compute; reflexivity).
  vm_compute. discriminate.
Qed.

(* ------------------------------------------------------------------ *)
(** ** Loose files *)

Lemma notifyLooseFileOpen_run m :
  notifyLooseFileOpen m =
    (tt,
     set_notifiedAboutLooseFiles true
       (if negb (_notifiedAboutLooseFiles m) && notifyOnOpenLooseFile (Host.config (host m))
        then set_host (set_openWarnings (S (Host.openWarnings (host m))) (host m)) m
        else m),
     SendTelemetryEvent "preview.fileOutOfWorkspace" ::
     (if negb (_notifiedAboutLooseFiles m) && notifyOnOpenLooseFile (Host.config (host m))
      then [ShowWarningMessage] else [])).
Proof.
  destruct m as [cp srv task pa ct nl ep ws cm pl rt h].
  apply run_eq; unfold_ops; cbn;
    destruct nl; cbn; try reflexivity;
    destruct (notifyOnOpenLooseFile (Host.config h)); reflexivity.
Qed.

(** Once the latch is set it stays set, and no event shows the prompt. *)
Lemma step_latched e m m' fx :
  _notifiedAboutLooseFiles m = true ->
  step e m = Some (m', fx) ->
  _notifiedAboutLooseFiles m' = true /\ ~ In ShowWarningMessage fx.
Proof.
  destruct m as [cp [running sr] [trun] pa ct nl ep ws cm pl rt h]; cbn.
  intros -> Hstep.
  destruct e; revert Hstep; crunch; intros Hstep;
    try discriminate; injection Hstep as <- <-; cbn;
    (split; [reflexivity | intuition discriminate]).
Qed.

Lemma run_latched es : forall m m' fx,
  _notifiedAboutLooseFiles m = true ->
  run es m = Some (m', fx) ->
  _notifiedAboutLooseFiles m' = true /\ ~ In ShowWarningMessage fx.
Proof.
  induction es as [| e rest IH]; cbn [run]; intros m m' fx Hl Hrun.
  - injection Hrun as <- <-. split; [exact Hl | intros []].
  - destruct (step e m) as [[m1 fx1] |] eqn:Hstep; [| discriminate].
    destruct (run rest m1) as [[m2 fx2] |] eqn:Hrest; [| discriminate].
    injection Hrun as <- <-.
    destruct (step_latched e m m1 fx1 Hl Hstep) as [Hl1 Hn1].
    destruct (IH m1 m2 fx2 Hl1 Hrest) as [Hl2 Hn2].
    split; [exact Hl2 |].
    intros Hin. apply in_app_or in Hin. destruct Hin; auto.
Qed.

(** C10. Every call of [notifyLooseFileOpen] sends the telemetry event and
    sets the latch, whether or not the prompt is shown; the prompt is shown
    only if the latch was clear and the setting on. Once the latch is set, no
    run of events shows the prompt again. So when the setting is off at the
    first call, that call shows no prompt and neither does anything after it,
    whatever the setting becomes. *)
Theorem notifyLooseFileOpen_always_latches (m : Manager) :
  _notifiedAboutLooseFiles (after (notifyLooseFileOpen m)) = true /\
  effects (notifyLooseFileOpen m) =
    SendTelemetryEvent "preview.fileOutOfWorkspace" ::
    (if negb (_notifiedAboutLooseFiles m) && notifyOnOpenLooseFile (Host.config (host m))
     then [ShowWarningMessage] else []) /\
  (forall es m1 m2 fx,
     _notifiedAboutLooseFiles m1 = true ->
     run es m1 = Some (m2, fx) ->
     _notifiedAboutLooseFiles m2 = true /\ ~ In ShowWarningMessage fx) /\
  (notifyOnOpenLooseFile (Host.config (host m)) = false ->
   ~ In ShowWarningMessage (effects (notifyLooseFileOpen m)) /\
   forall es m2 fx,
     run es (after (notifyLooseFileOpen m)) = Some (m2, fx) ->
     ~ In ShowWarningMessage fx).
Proof.
  rewrite notifyLooseFileOpen_run; unfold after, effects; cbn [fst snd].
  repeat apply conj.
  - destruct (negb _ && _); reflexivity.
  - reflexivity.
  - intros es m1 m2 fx. apply run_latched.
  - intros Hoff. rewrite Hoff, andb_false_r.
    split; [cbn; intuition discriminate |].
    intros es m2 fx Hrun.
    exact (proj2 (run_latched es (set_notifiedAboutLooseFiles true m) m2 fx
                    eq_refl Hrun)).
Qed.

Lemma notifyLooseFileOpen_witness :
  notifyOnOpenLooseFile (Host.config (host quiet)) = false /\
  ~ In ShowWarningMessage (effects (notifyLooseFileOpen quiet)).
Proof.
  split; [reflexivity |].
  exact (proj1 (proj2 (proj2 (proj2 (notifyLooseFileOpen_always_latches quiet))) eq_refl)).
Defined.

(** The setting switched on after a first loose file was opened with the
    setting off: the second loose file gets the telemetry event and no prompt. *)
Example prompt_lost_for_the_lifetime :
  option_map snd
    (run [Connected "http://127.0.0.1:3000";
          CallCreateOrShowEmbeddedPreview None "/a/loose.html" false;
          ConfigurationChanged Sample.config true;
          CallCreateOrShowEmbeddedPreview None "/b/loose.html" false] quiet)
  = Some
      [TaskServerStarted "http://127.0.0.1:3000" JUST_STARTED;
       SendTelemetryEvent "preview.fileOutOfWorkspace";
       EndpointEncode "/a/loose.html";
       CreateWebviewPanel (CreatedPanel 0);
       NewBrowserPreview (mkBrowserPreview 0 "/endpoint/a/loose.html" (CreatedPanel 0));
       ServerUpdateConfigurations;
       SendTelemetryEvent "preview.fileOutOfWorkspace";
       EndpointEncode "/b/loose.html";
       PreviewReveal (mkBrowserPreview 0 "/endpoint/a/loose.html" (CreatedPanel 0))
         "/endpoint/b/loose.html"].
Proof. vm_compute; reflexivity. Qed.

Example replaceBackslashes_windows_path :
  replaceBackslashes ("sub" ++ String backslash "page.html")%string
    = "sub/page.html"%string.
Proof. reflexivity. Qed.







(** C9, as the code has it. A non-relative path outside the default workspace
    but inside some known workspace is encoded through the endpoint manager,
    and that is all: no telemetry event, no prompt, and the state (the latch
    included) is untouched. *)
Theorem transformNonRelativeFile_other_workspace (file : string) (m : Manager) :
  WorkspaceManager.absPathInDefaultWorkspace (_workspaceManager m) file = false ->
  WorkspaceManager.absPathInAnyWorkspace (_workspaceManager m) file = true ->
  transformNonRelativeFile false file m =
    (EndpointManager.encodeLooseFileEndpoint (_endpointManager m) file,
     m,
     [EndpointEncode file]).
Proof.
  destruct m as [cp srv task pa ct nl ep ws cm pl rt h]; cbn.
  intros HD HA.
  apply run_eq; unfold_ops; cbn; rewrite HD; cbn; rewrite HA; reflexivity.
Qed.

Lemma transformNonRelativeFile_other_workspace_witness :
  result (transformNonRelativeFile false "/other/a.html" Sample.fresh)
    = "/endpoint/other/a.html"%string.
Proof.
  exact (f_equal result
           (transformNonRelativeFile_other_workspace "/other/a.html" Sample.fresh
              eq_refl eq_refl)).
Defined.

(** C9 as stated fails: a file of another workspace folder fires neither the
    telemetry event nor the prompt, and leaves the latch clear. *)
Lemma other_workspace_file_not_notified :
  WorkspaceManager.absPathInDefaultWorkspace (_workspaceManager Sample.fresh)
    "/other/a.html" = false /\
  WorkspaceManager.absPathInAnyWorkspace (_workspaceManager Sample.fresh)
    "/other/a.html" = true /\
  notifyOnOpenLooseFile (Host.config (host Sample.fresh)) = true /\
  effects (transformNonRelativeFile false "/other/a.html" Sample.fresh)
    = [EndpointEncode "/other/a.html"] /\
  _notifiedAboutLooseFiles
    (after (transformNonRelativeFile false "/other/a.html" Sample.fresh)) = false.
Proof.
  repeat apply conj; vm_compute; reflexivity.
Qed.

(* ------------------------------------------------------------------ *)
(** ** Further properties: closing the server *)

(** X1. [closeServer] called again right after [closeServer] finds the server
    stopped: it returns false, calls nothing and changes nothing. *)
Theorem closeServer_twice (m : Manager) :
  closeServer (after (closeServer m)) = (false, after (closeServer m), []).
Proof.
  destruct m as [cp [running sr] [trun] pa ct nl ep ws cm pl rt
                    [cfg ts nt ss ns np ow]].
  destruct running; [| apply run_eq; reflexivity].
  destruct cp as [cur|]; [destruct (existsb (same_session cur) ss) eqn:Hlive |];
    destruct trun; apply run_eq; unfold_ops; unfold is_live; cbn;
    rewrite ?Hlive; reflexivity.
Qed.

(** X2. In a state a coordinator can be in, [closeServer] on a running server
    leaves nothing on show: no session is referenced, none is live, the
    server is stopped and no intent is stored; if a session was on show, its
    keep-alive timer is now the one pending timer. *)
Theorem closeServer_leaves_nothing_on_show (m : Manager) :
  reachable m ->
  Server.isRunning (_server m) = true ->
  let m' := after (closeServer m) in
  currentPanel m' = None /\
  Host.sessions (host m') = [] /\
  Server.isRunning (_server m') = false /\
  _pendingLaunchInfo m' = None /\
  (currentPanel m <> None ->
   Host.timers (host m') =
     [(Host.nextTimer (host m),
       keepAliveMs (serverKeepAliveAfterEmbeddedPreviewClose (Host.config (host m))))]).
Proof.
  intros Hm Hrun m'. subst m'.
  destruct (reachable_Inv m Hm) as [Hp Hs].
  destruct m as [cp [running sr] [trun] pa ct nl ep ws cm pl rt
                    [cfg ts nt ss ns np ow]].
  cbn in Hp, Hs, Hrun. subst running.
  assert (pl = None) as ->.
  { destruct pl; [| reflexivity].
    assert (true = false) by (apply Hp; discriminate). discriminate. }
  destruct cp as [cur|].
  - destruct Hs as (-> & -> & ->).
    destruct trun; unfold_ops; cbn;
      rewrite ?same_session_refl, ?Nat.eqb_refl; cbn;
      rewrite ?same_session_refl, ?Nat.eqb_refl; cbn;
      repeat apply conj; reflexivity.
  - destruct Hs as (-> & _).
    destruct trun; unfold_ops; cbn;
      repeat apply conj; try reflexivity;
      intros H; exfalso; apply H; reflexivity.
Qed.

Lemma closeServer_leaves_nothing_witness :
  currentPanel (after (closeServer previewing)) = None /\
  Host.timers (host (after (closeServer previewing))) = [(0%nat, JsInt 180000)].
Proof.
  pose proof (closeServer_leaves_nothing_on_show previewing previewing_reachable eq_refl)
    as H.
  split.
  - exact (proj1 H).
  - apply (proj2 (proj2 (proj2 (proj2 H)))). discriminate.
Defined.

(** X3. The close request of the task provider. While [_previewActive] is set
    the handler only calls [serverStop(false)] and changes nothing. Otherwise,
    in a state a coordinator can be in, it closes the server if it is running
    (no preview is there to close; a running task is told [serverStop(true)]
    by [closeServer] already) and then calls [serverStop(true)]; the server is
    stopped afterwards. *)
Theorem close_request_stops_task_and_maybe_server (m : Manager) :
  reachable m ->
  (_previewActive m = true ->
   onRequestToCloseServerHandler m = (tt, m, [TaskServerStop false])) /\
  (_previewActive m = false ->
   effects (onRequestToCloseServerHandler m) =
     (if Server.isRunning (_server m) then
        ServerCloseServer ::
        (if ServerTaskProvider.isRunning (_serverTaskProvider m)
         then [TaskServerStop true] else [])
        ++ [ConnDisconnected]
      else [])
     ++ [TaskServerStop true] /\
   Server.isRunning (_server (after (onRequestToCloseServerHandler m))) = false /\
   currentPanel (after (onRequestToCloseServerHandler m)) = None).
Proof.
  intros Hm. destruct (reachable_Inv m Hm) as [_ Hs].
  destruct m as [cp [running sr] [trun] pa ct nl ep ws cm pl rt
                    [cfg ts nt ss ns np ow]].
  cbn in Hs. split; cbn; intros ->.
  - reflexivity.
  - destruct cp as [cur|]; [destruct Hs as (_ & _ & Hs); discriminate Hs |].
    destruct running, trun; repeat apply conj; reflexivity.
Qed.

Lemma close_request_witness :
  onRequestToCloseServerHandler panelClosed = (tt, panelClosed, [TaskServerStop false]) /\
  effects (onRequestToCloseServerHandler Sample.fresh) = [TaskServerStop true].
Proof.
  assert (Hc : reachable panelClosed).
  { eapply reachable_step with
      (e := PanelDisposed (mkBrowserPreview 0 "/" (CreatedPanel 0)))
      (fx := effects (handle (PanelDisposed (mkBrowserPreview 0 "/" (CreatedPanel 0)))
                        previewing)).
    - exact previewing_reachable.
    - reflexivity. }
  split.
  - exact (proj1 (close_request_stops_task_and_maybe_server panelClosed Hc) eq_refl).
  - exact (proj1 (proj2 (close_request_stops_task_and_maybe_server Sample.fresh
                           (reachable_initial _ _ _ _ _)) eq_refl)).
Defined.

(* ------------------------------------------------------------------ *)
(** ** Further properties: the handlers of the constructor *)

(** X4. Opening an editor to the side. The handler always issues exactly one
    [vscode.open] and changes nothing. With a preview on show whose panel
    sits in column [c >= 1], the editor goes to a column that is not the
    preview's and is still a real column: column 2 if the preview is in
    column 1, the column to its left otherwise. A panel without a column
    counts as column 1. Without a preview no column is asked for. *)
Theorem editor_opens_beside_preview (uri : string) (viewColumn : option Z) (m : Manager) :
  after (onRequestOpenEditorToSideHandler uri viewColumn m) = m /\
  (_previewActive m && truthy (currentPanel m) = false ->
   effects (onRequestOpenEditorToSideHandler uri viewColumn m)
     = [ExecuteVscodeOpen uri None]) /\
  (_previewActive m && truthy (currentPanel m) = true ->
   (viewColumn = None ->
    effects (onRequestOpenEditorToSideHandler uri viewColumn m)
      = [ExecuteVscodeOpen uri (Some 2%Z)]) /\
   (forall c, viewColumn = Some c -> (1 <= c)%Z ->
      exists col,
        effects (onRequestOpenEditorToSideHandler uri viewColumn m)
          = [ExecuteVscodeOpen uri (Some col)] /\
        col <> c /\ (1 <= col)%Z /\
        (c = 1%Z -> col = 2%Z) /\ (c <> 1%Z -> col = (c - 1)%Z))).
Proof.
  destruct m as [cp srv task pa ct nl ep ws cm pl rt h].
  unfold onRequestOpenEditorToSideHandler, after, effects, bind, get, emit; cbn.
  split; [destruct (pa && truthy cp); reflexivity |].
  split; intros ->; [reflexivity |].
  split.
  - intros ->. reflexivity.
  - intros c -> Hc.
    destruct (Z.eqb_spec c 1) as [-> | Hne].
    + exists 2%Z. repeat apply conj; try reflexivity; try lia.
    + exists (c - 1)%Z.
      destruct (Z.eqb_spec c 1) as [E | _]; [now elim Hne |].
      repeat apply conj; try reflexivity; lia.
Qed.

Lemma editor_opens_beside_preview_witness :
  exists col,
    effects (onRequestOpenEditorToSideHandler "file:///ws/a.html" (Some 3%Z) previewing)
      = [ExecuteVscodeOpen "file:///ws/a.html" (Some col)] /\
    col <> 3%Z /\ (1 <= col)%Z /\
    (3%Z = 1%Z -> col = 2%Z) /\ (3%Z <> 1%Z -> col = (3 - 1)%Z).
Proof.
  apply (proj2 (proj2 (proj2
           (editor_opens_beside_preview "file:///ws/a.html" (Some 3%Z) previewing))
           eq_refl) 3%Z eq_refl).
  lia.
Defined.

(** X5. A configuration change never touches the port in use: whatever the
    new settings, the handler leaves [httpPort], the server, the stored
    intent, the preview, the timer handle and the latch as they were. A change
    that affects the extension's section asks the server to re-read its
    configuration, records the new port as [pendingPort] and re-reads
    run-as-task; any other change does nothing. *)
Theorem configuration_change_keeps_port_in_use
    (cfg : LiveServerConfig) (affects : bool) (m : Manager) :
  let m' := after (handle (ConfigurationChanged cfg affects) m) in
  ConnectionManager.httpPort (_connectionManager m')
    = ConnectionManager.httpPort (_connectionManager m) /\
  _server m' = _server m /\
  _pendingLaunchInfo m' = _pendingLaunchInfo m /\
  currentPanel m' = currentPanel m /\
  _previewActive m' = _previewActive m /\
  _currentTimeout m' = _currentTimeout m /\
  _notifiedAboutLooseFiles m' = _notifiedAboutLooseFiles m /\
  (if affects then
     effects (handle (ConfigurationChanged cfg affects) m) = [ServerUpdateConfigurations] /\
     ConnectionManager.pendingPort (_connectionManager m') = portNumber cfg /\
     _runTaskWithExternalPreview m' = runTaskWithExternalPreview cfg
   else
     effects (handle (ConfigurationChanged cfg affects) m) = [] /\
     _connectionManager m' = _connectionManager m /\
     _runTaskWithExternalPreview m' = _runTaskWithExternalPreview m).
Proof.
  destruct m as [cp srv task pa ct nl ep ws cm pl rt h].
  destruct affects; unfold_ops; cbn; repeat apply conj; reflexivity.
Qed.

(* ------------------------------------------------------------------ *)
(** ** Further properties: embedded previews while the server runs *)

(** X6. An embedded-preview request with the server running and a preview on
    show only reveals that preview with the resolved path: after the path
    resolution the one call is [reveal]; no panel and no session is created,
    the panel handed in is not used, and the preview, the live sessions, the
    timers and the stored intent are as before. *)
Theorem embedded_request_reveals_preview_on_show
    (p : option WebviewPanel) (f : string) (r : bool) (cur : BrowserPreview)
    (m : Manager) :
  Server.isRunning (_server m) = true ->
  currentPanel m = Some cur ->
  let call := createOrShowEmbeddedPreview p f r m in
  effects call =
    effects (transformNonRelativeFile r f m)
    ++ [PreviewReveal cur (result (transformNonRelativeFile r f m))] /\
  count_previews (effects call) = 0%nat /\
  count_panels (effects call) = 0%nat /\
  currentPanel (after call) = Some cur /\
  Host.sessions (host (after call)) = Host.sessions (host m) /\
  Host.timers (host (after call)) = Host.timers (host m) /\
  _pendingLaunchInfo (after call) = _pendingLaunchInfo m.
Proof.
  destruct m as [cp [running sr] [trun] pa ct nl ep ws cm pl rt
                    [cfg ts nt ss ns np ow]]; cbn.
  intros -> ->. crunch; repeat apply conj; reflexivity.
Qed.

Lemma embedded_request_reveals_witness :
  effects (createOrShowEmbeddedPreview (Some (HostPanel 4)) "/b.html" true previewing)
    = [PreviewReveal (mkBrowserPreview 0 "/" (CreatedPanel 0)) "/b.html"].
Proof.
  exact (proj1 (embedded_request_reveals_preview_on_show
                  (Some (HostPanel 4)) "/b.html" true
                  (mkBrowserPreview 0 "/" (CreatedPanel 0)) previewing
                  eq_refl eq_refl)).
Defined.

(** X7. In a state a coordinator can be in, an embedded-preview request with
    the server running and no preview on show creates exactly one session:
    it shows the resolved path in the panel handed in, or in a panel created
    for it when none was handed in; that session becomes the referenced and
    only live one, [_previewActive] is set and no timer is left pending. *)
Theorem embedded_request_creates_one_preview
    (p : option WebviewPanel) (f : string) (r : bool) (m : Manager) :
  reachable m ->
  Server.isRunning (_server m) = true ->
  currentPanel m = None ->
  let call := createOrShowEmbeddedPreview p f r m in
  let bp := mkBrowserPreview (Host.nextSession (host m))
              (result (transformNonRelativeFile r f m))
              match p with
              | Some q => q
              | None => CreatedPanel (Host.nextPanel (host m))
              end in
  currentPanel (after call) = Some bp /\
  Host.sessions (host (after call)) = [bp] /\
  In (NewBrowserPreview bp) (effects call) /\
  count_previews (effects call) = 1%nat /\
  count_panels (effects call) = match p with Some _ => 0%nat | None => 1%nat end /\
  _previewActive (after call) = true /\
  Host.timers (host (after call)) = [].
Proof.
  intros Hm Hrun Hcp call bp. subst call bp.
  destruct (reachable_Inv m Hm) as [_ Hs].
  destruct m as [cp [running sr] [trun] pa ct nl ep ws cm pl rt
                    [cfg ts nt ss ns np ow]].
  cbn in Hs, Hrun, Hcp. subst running cp.
  destruct Hs as (-> & [(-> & ->) | (id & ms & -> & -> & ->)]);
    destruct p as [q|]; crunch; rewrite ?Nat.eqb_refl in *; try discriminate;
    cbn; repeat apply conj; try reflexivity; auto 8.
Qed.

Lemma embedded_request_creates_witness :
  currentPanel
    (after (createOrShowEmbeddedPreview None "/index.html" true
              (after (handle (Connected "http://127.0.0.1:3000") Sample.fresh))))
  = Some (mkBrowserPreview 0 "/index.html" (CreatedPanel 0)).
Proof.
  refine (proj1 (embedded_request_creates_one_preview None "/index.html" true
                   (after (handle (Connected "http://127.0.0.1:3000") Sample.fresh))
                   _ eq_refl eq_refl)).
  eapply reachable_step with
    (e := Connected "http://127.0.0.1:3000")
    (fx := effects (handle (Connected "http://127.0.0.1:3000") Sample.fresh)).
  - apply reachable_initial.
  - reflexivity.
Defined.

(** X8. No event creates a preview session while one is on show, and no event
    ever creates more than one. *)
Theorem no_second_preview (e : Event) (m : Manager) :
  (count_previews (effects (handle e m)) <= 1)%nat /\
  (currentPanel m <> None -> count_previews (effects (handle e m)) = 0%nat).
Proof.
  destruct m as [cp [running sr] [trun] pa ct nl ep ws cm pl rt
                    [cfg ts nt ss ns np ow]]; cbn.
  split.
  - destruct e; crunch; cbn; lia.
  - intros Hcp. destruct cp as [cur|]; [| now elim Hcp]. clear Hcp.
    destruct e; crunch; cbn; reflexivity.
Qed.

Lemma no_second_preview_witness :
  count_previews
    (effects (handle (CallCreateOrShowEmbeddedPreview None "/b.html" true) previewing))
  = 0%nat.
Proof.
  apply (proj2 (no_second_preview
                  (CallCreateOrShowEmbeddedPreview None "/b.html" true) previewing)).
  discriminate.
Defined.

(* ------------------------------------------------------------------ *)
(** ** Further properties: the external browser *)

(** X9. [showPreviewInBrowser] either opens the browser or stores an intent,
    never both and never a preview. If a task is running or the server is
    running, it opens exactly one address, the one built from the current
    port and the resolved path with slashes for backslashes, and leaves the
    slot as it was. Otherwise it opens nothing and stores the external intent
    for this file. In no case does it create a panel or a session or touch
    the preview on show. *)
Theorem showPreviewInBrowser_browser_or_intent (f : string) (r : bool) (m : Manager) :
  let call := showPreviewInBrowser f r m in
  count_previews (effects call) = 0%nat /\
  count_panels (effects call) = 0%nat /\
  currentPanel (after call) = currentPanel m /\
  Host.sessions (host (after call)) = Host.sessions (host m) /\
  (if ServerTaskProvider.isRunning (_serverTaskProvider m)
      || Server.isRunning (_server m)
   then
     count_external (effects call) = 1%nat /\
     In (OpenExternal
           (mkExternalUri (ConnectionManager.httpPort (_connectionManager m))
              (replaceBackslashes (result (transformNonRelativeFile r f m)))))
        (effects call) /\
     _pendingLaunchInfo (after call) = _pendingLaunchInfo m
   else
     count_external (effects call) = 0%nat /\
     _pendingLaunchInfo (after call) = Some (mkLaunchInfo true f r None)).
Proof.
  destruct m as [cp [running sr] [trun] pa ct nl ep ws cm pl rt
                    [cfg ts nt ss ns np ow]]; cbn.
  destruct trun, running; crunch; cbn; repeat apply conj; try reflexivity; auto 8.
Qed.

(** X10. No event makes the class start the task ([extRunTask]) while the task
    provider reports a task running. *)
Theorem no_task_start_while_task_runs (e : Event) (m : Manager) (verbose : bool) :
  ServerTaskProvider.isRunning (_serverTaskProvider m) = true ->
  ~ In (TaskExtRunTask verbose) (effects (handle e m)).
Proof.
  destruct m as [cp [running sr] [trun] pa ct nl ep ws cm pl rt
                    [cfg ts nt ss ns np ow]]; cbn.
  intros ->. destruct e; crunch; cbn; intuition discriminate.
Qed.

(** A coordinator whose task provider reports a running task. *)
Lemma no_task_start_witness :
  ~ In (TaskExtRunTask true)
      (effects (handle (CallShowPreviewInBrowser "/" true)
                  (after (handle (TaskRunningChanged true) Sample.fresh)))).
Proof.
  exact (no_task_start_while_task_runs (CallShowPreviewInBrowser "/" true)
           (after (handle (TaskRunningChanged true) Sample.fresh)) true eq_refl).
Defined.

(** What the connected event launches for the intent it finds. *)
Lemma connected_dispatch (uri : string) (li : launchInfo) (m : Manager) :
  _pendingLaunchInfo m = Some li ->
  let fx := effects (handle (Connected uri) m) in
  if external li then
    count_external fx = 1%nat /\
    In (OpenExternal
          (mkExternalUri (ConnectionManager.httpPort (_connectionManager m))
             (replaceBackslashes
                (result (transformNonRelativeFile (relative li) (file li) m))))) fx /\
    count_previews fx = 0%nat /\
    count_panels fx = 0%nat
  else count_external fx = 0%nat.
Proof.
  destruct m as [cp [running sr] [trun] pa ct nl ep ws cm pl rt
                    [cfg ts nt ss ns np ow]]; cbn.
  intros ->. destruct li as [ext f r p]. cbn [external relative file].
  destruct ext; crunch; cbn; repeat apply conj; try reflexivity; auto 8.
Qed.

(** X11. When the connected event finds an intent, the launch goes where the
    intent says. An external intent opens exactly one address in the browser,
    built from the current port and the resolved path, and creates neither a
    panel nor a session; an embedded intent opens nothing in the browser. *)
Theorem connected_dispatch_goes_to_target (uri : string) (li : launchInfo) (m : Manager) :
  _pendingLaunchInfo m = Some li ->
  let fx := effects (handle (Connected uri) m) in
  if external li then
    count_external fx = 1%nat /\
    In (OpenExternal
          (mkExternalUri (ConnectionManager.httpPort (_connectionManager m))
             (replaceBackslashes
                (result (transformNonRelativeFile (relative li) (file li) m))))) fx /\
    count_previews fx = 0%nat /\
    count_panels fx = 0%nat
  else count_external fx = 0%nat.
Proof.
  intros Hli. exact (connected_dispatch uri li m Hli).
Qed.

Lemma connected_dispatch_witness :
  count_external
    (effects (handle (Connected "http://127.0.0.1:3000")
                (after (showPreviewInBrowser "/index.html" true Sample.fresh))))
  = 1%nat.
Proof.
  exact (proj1 (connected_dispatch_goes_to_target "http://127.0.0.1:3000"
                  (mkLaunchInfo true "/index.html" true None)
                  (after (showPreviewInBrowser "/index.html" true Sample.fresh))
                  eq_refl)).
Defined.

(* ------------------------------------------------------------------ *)
(** ** Further properties: who stops the server *)

(** X12. The server is asked to stop only by [closeServer()], [dispose()],
    the close request of the task provider and the keep-alive timer: no launch
    request, connection event, configuration change or panel event ever calls
    [_server.closeServer()]. *)
Theorem server_stopped_only_on_demand (e : Event) (m : Manager) :
  In ServerCloseServer (effects (handle e m)) -> may_close_server e = true.
Proof.
  destruct m as [cp [running sr] [trun] pa ct nl ep ws cm pl rt
                    [cfg ts nt ss ns np ow]].
  destruct e; try (intros _; reflexivity);
    crunch; cbn; intuition discriminate.
Qed.

Lemma server_stopped_only_on_demand_witness :
  may_close_server CallCloseServer = true.
Proof.
  apply (server_stopped_only_on_demand CallCloseServer previewing).
  vm_compute. left; reflexivity.
Defined.

(** Which events stop a running server while a preview is on show. *)
Lemma stops_under_preview e m m' fx :
  Inv m ->
  currentPanel m <> None ->
  step e m = Some (m', fx) ->
  (In ServerCloseServer fx -> e = CallCloseServer \/ e = CallDispose) /\
  (Server.isRunning (_server m) = true ->
   Server.isRunning (_server m') = false ->
   e = CallCloseServer \/ e = CallDispose \/ e = ServerTerminated).
Proof.
  intros [_ Hs] Hcp Hstep.
  destruct m as [cp [running sr] [trun] pa ct nl ep ws cm pl rt
                    [cfg ts nt ss ns np ow]].
  cbn in Hs, Hcp. destruct cp as [cur|]; [| now elim Hcp]. clear Hcp.
  destruct Hs as (-> & -> & ->).
  split.
  - intros Hin.
    destruct e; try (left; reflexivity); try (right; reflexivity); exfalso;
      revert Hstep Hin; crunch; intros Hstep; try discriminate;
      injection Hstep as <- <-; cbn; intuition discriminate.
  - cbn. intros -> Hstopped.
    destruct e; try (left; reflexivity); try (right; left; reflexivity);
      try (right; right; reflexivity); exfalso;
      revert Hstep Hstopped; crunch; intros Hstep; try discriminate;
      injection Hstep as <- <-; cbn; discriminate.
Qed.

(** X13. While a preview is on show, in a state a coordinator can be in, no
    keep-alive timer is pending, so none can fire; the close request of the
    task provider only calls [serverStop(false)] and changes nothing; the
    class calls [_server.closeServer()] only in an explicit [closeServer()]
    or [dispose()]; and a running server is stopped by no event other than
    these two and the server's own termination. *)
Theorem preview_on_show_keeps_server (m : Manager) :
  reachable m ->
  currentPanel m <> None ->
  Host.timers (host m) = [] /\
  (forall id, enabled (TimerFired id) m = false) /\
  handle RequestToCloseServer m = (tt, m, [TaskServerStop false]) /\
  (forall e m' fx,
     step e m = Some (m', fx) ->
     (In ServerCloseServer fx -> e = CallCloseServer \/ e = CallDispose) /\
     (Server.isRunning (_server m) = true ->
      Server.isRunning (_server m') = false ->
      e = CallCloseServer \/ e = CallDispose \/ e = ServerTerminated)).
Proof.
  intros Hm Hcp.
  pose proof (reachable_Inv m Hm) as HI.
  repeat apply conj.
  - destruct HI as [_ Hs]. destruct (currentPanel m); [| now elim Hcp].
    exact (proj1 (proj2 Hs)).
  - intros id. destruct HI as [_ Hs]. destruct (currentPanel m); [| now elim Hcp].
    destruct Hs as (_ & Hts & _). unfold enabled. rewrite Hts. reflexivity.
  - destruct HI as [_ Hs].
    destruct m as [cp srv task pa ct nl ep ws cm pl rt h]; cbn in Hs, Hcp.
    destruct cp as [cur|]; [| now elim Hcp].
    destruct Hs as (_ & _ & ->). reflexivity.
  - intros e m' fx Hstep. exact (stops_under_preview e m m' fx HI Hcp Hstep).
Qed.

Lemma preview_on_show_keeps_server_witness :
  Host.timers (host previewing) = [] /\
  handle RequestToCloseServer previewing = (tt, previewing, [TaskServerStop false]) /\
  (CallCloseServer = CallCloseServer \/ CallCloseServer = CallDispose).
Proof.
  assert (Hcp : currentPanel previewing <> None) by discriminate.
  pose proof (preview_on_show_keeps_server previewing previewing_reachable Hcp)
    as (H1 & _ & H3 & H4).
  repeat apply conj.
  - exact H1.
  - exact H3.
  - refine (proj1 (H4 CallCloseServer
              (after (handle CallCloseServer previewing))
              (effects (handle CallCloseServer previewing)) eq_refl) _).
    vm_compute. left; reflexivity.
Defined.

(** X14. When the keep-alive timer fires in a state a coordinator can be in,
    no preview is on show, so the shutdown is only this: if the server is
    running, no task is running, a workspace is open and run-as-task is on,
    stop the server and mark the connection manager disconnected; otherwise
    call nothing. Afterwards no timer is pending, no preview is referenced and
    [_previewActive] is clear. *)
Theorem timer_fired_shutdown (id : nat) (m m' : Manager) (fx : list Effect) :
  reachable m ->
  step (TimerFired id) m = Some (m', fx) ->
  fx = (if Server.isRunning (_server m)
           && negb (ServerTaskProvider.isRunning (_serverTaskProvider m))
           && truthy (WorkspaceManager.workspace (_workspaceManager m))
           && _runTaskWithExternalPreview m
        then [ServerCloseServer; ConnDisconnected] else []) /\
  Host.timers (host m') = [] /\
  currentPanel m' = None /\
  _previewActive m' = false /\
  Server.isRunning (_server m') =
    Server.isRunning (_server m)
    && negb (negb (ServerTaskProvider.isRunning (_serverTaskProvider m))
             && truthy (WorkspaceManager.workspace (_workspaceManager m))
             && _runTaskWithExternalPreview m).
Proof.
  intros Hm Hstep.
  destruct (reachable_Inv m Hm) as [_ Hs].
  destruct m as [cp [running sr] [trun] pa ct nl ep [w inD inA rel] cm pl rt
                    [cfg ts nt ss ns np ow]].
  cbn in Hs.
  destruct cp as [cur|].
  - destruct Hs as (_ & -> & _). discriminate Hstep.
  - destruct Hs as (-> & [(-> & _) | (id' & ms & -> & _ & _)]);
      [discriminate Hstep |].
    revert Hstep. unfold step, enabled, is_pending; cbn.
    destruct (Nat.eqb id' id) eqn:E; cbn; [| discriminate].
    intros Hstep; injection Hstep as <- <-.
    unfold_ops; cbn.
    destruct running, trun, w, rt; cbn; repeat apply conj; reflexivity.
Qed.

Lemma timer_fired_shutdown_witness :
  effects (handle (TimerFired 0) panelClosed) = [] /\
  _previewActive (after (handle (TimerFired 0) panelClosed)) = false.
Proof.
  assert (Hc : reachable panelClosed).
  { eapply reachable_step with
      (e := PanelDisposed (mkBrowserPreview 0 "/" (CreatedPanel 0)))
      (fx := effects (handle (PanelDisposed (mkBrowserPreview 0 "/" (CreatedPanel 0)))
                        previewing)).
    - exact previewing_reachable.
    - reflexivity. }
  pose proof (timer_fired_shutdown 0 panelClosed
                (after (handle (TimerFired 0) panelClosed))
                (effects (handle (TimerFired 0) panelClosed)) Hc eq_refl) as H.
  split.
  - exact (proj1 H).
  - exact (proj1 (proj2 (proj2 (proj2 H)))).
Defined.

(* ------------------------------------------------------------------ *)
(** ** Further properties: the loose-file prompt and path resolution *)

Lemma count_prompts_app (a b : list Effect) :
  count_prompts (a ++ b) = (count_prompts a + count_prompts b)%nat.
Proof.
  unfold count_prompts. rewrite filter_app, length_app. reflexivity.
Qed.

Lemma count_prompts_none (fx : list Effect) :
  ~ In ShowWarningMessage fx -> count_prompts fx = 0%nat.
Proof.
  unfold count_prompts. induction fx as [| e rest IH]; cbn; intros Hn.
  - reflexivity.
  - destruct e; cbn; try (apply IH; intros H; apply Hn; right; exact H).
    exfalso; apply Hn; left; reflexivity.
Qed.

(** One event shows at most one prompt, and one that does sets the latch. *)
Lemma step_prompts e m m' fx :
  step e m = Some (m', fx) ->
  (count_prompts fx <= 1)%nat /\
  (count_prompts fx = 1%nat -> _notifiedAboutLooseFiles m' = true).
Proof.
  destruct m as [cp [running sr] [trun] pa ct nl ep ws cm pl rt h].
  intros Hstep.
  destruct e; revert Hstep; crunch; intros Hstep;
    try discriminate; injection Hstep as <- <-; cbn;
    (split; [lia | first [reflexivity | discriminate | intros _; reflexivity]]).
Qed.

(** X15. Whatever happens to a coordinator, in whatever state it starts, the
    loose-file prompt is shown at most once. *)
Theorem prompt_at_most_once (es : list Event) (m m' : Manager) (fx : list Effect) :
  run es m = Some (m', fx) -> (count_prompts fx <= 1)%nat.
Proof.
  revert m m' fx.
  induction es as [| e rest IH]; cbn [run]; intros m m' fx Hrun.
  - injection Hrun as <- <-. cbn; lia.
  - destruct (step e m) as [[m1 fx1] |] eqn:Hstep; [| discriminate].
    destruct (run rest m1) as [[m2 fx2] |] eqn:Hrest; [| discriminate].
    injection Hrun as <- <-.
    rewrite count_prompts_app.
    destruct (step_prompts e m m1 fx1 Hstep) as [Hle Hlatch].
    destruct (count_prompts fx1) as [| [| k]] eqn:Hc; [| | lia].
    + cbn. exact (IH m1 m2 fx2 Hrest).
    + destruct (run_latched rest m1 m2 fx2 (Hlatch eq_refl) Hrest) as [_ Hn].
      rewrite (count_prompts_none fx2 Hn). lia.
Qed.

Lemma prompt_at_most_once_witness :
  (count_prompts
     [TaskServerStarted "http://127.0.0.1:3000" JUST_STARTED;
      SendTelemetryEvent "preview.fileOutOfWorkspace";
      ShowWarningMessage; EndpointEncode "/a/loose.html";
      CreateWebviewPanel (CreatedPanel 0);
      NewBrowserPreview (mkBrowserPreview 0 "/endpoint/a/loose.html" (CreatedPanel 0));
      SendTelemetryEvent "preview.fileOutOfWorkspace";
      EndpointEncode "/b/loose.html";
      PreviewReveal (mkBrowserPreview 0 "/endpoint/a/loose.html" (CreatedPanel 0))
        "/endpoint/b/loose.html"] <= 1)%nat.
Proof.
  refine (prompt_at_most_once
            [Connected "http://127.0.0.1:3000";
             CallCreateOrShowEmbeddedPreview None "/a/loose.html" false;
             CallCreateOrShowEmbeddedPreview None "/b/loose.html" false]
            Sample.fresh
            (after (handle (CallCreateOrShowEmbeddedPreview None "/b/loose.html" false)
               (after (handle (CallCreateOrShowEmbeddedPreview None "/a/loose.html" false)
                  (after (handle (Connected "http://127.0.0.1:3000") Sample.fresh))))))
            _ _).
  vm_compute. reflexivity.
Defined.

(** X16. Path resolution touches nothing but the loose-file bookkeeping: after
    [transformNonRelativeFile] the state differs from the one before at most
    in the latch and in the count of prompts on screen, and the latch is never
    cleared by it. A relative path is returned as it is, with no call made and
    the state untouched. *)
Theorem transformNonRelativeFile_touches_only_latch
    (relative : bool) (file : string) (m : Manager) :
  let m' := after (transformNonRelativeFile relative file m) in
  m' = set_notifiedAboutLooseFiles (_notifiedAboutLooseFiles m')
         (set_host (set_openWarnings (Host.openWarnings (host m')) (host m)) m) /\
  (_notifiedAboutLooseFiles m = true -> _notifiedAboutLooseFiles m' = true) /\
  (relative = true -> transformNonRelativeFile relative file m = (file, m, [])).
Proof.
  destruct m as [cp srv task pa ct nl ep ws cm pl rt
                    [cfg ts nt ss ns np ow]].
  repeat apply conj.
  - crunch; reflexivity.
  - cbn. intros ->. crunch; reflexivity.
  - intros ->. reflexivity.
Qed.

Lemma transformNonRelativeFile_touches_only_latch_witness :
  transformNonRelativeFile true "/a/loose.html" Sample.fresh
    = ("/a/loose.html"%string, Sample.fresh, []).
Proof.
  exact (proj2 (proj2 (transformNonRelativeFile_touches_only_latch
                         true "/a/loose.html" Sample.fresh)) eq_refl).
Defined.

Lemma replaceBackslashes_clean (s : string) :
  has_backslash (replaceBackslashes s) = false.
Proof.
  induction s as [| c rest IH]; cbn [replaceBackslashes has_backslash].
  - reflexivity.
  - rewrite IH, orb_false_r.
    destruct (Ascii.eqb c backslash) eqn:E; [vm_compute; reflexivity | exact E].
Qed.

Lemma replaceBackslashes_fixes_clean (s : string) :
  has_backslash s = false -> replaceBackslashes s = s.
Proof.
  induction s as [| c rest IH]; cbn [replaceBackslashes has_backslash]; intros H.
  - reflexivity.
  - apply orb_false_iff in H. destruct H as [Hc Hrest].
    rewrite Hc, (IH Hrest). reflexivity.
Qed.

(** X17. Turning backslashes into slashes keeps the length of the path,
    leaves a path without backslashes as it is, yields a path without
    backslashes, and so gives the same result when applied twice. *)
Theorem replaceBackslashes_normalizes (s : string) :
  String.length (replaceBackslashes s) = String.length s /\
  has_backslash (replaceBackslashes s) = false /\
  (has_backslash s = false -> replaceBackslashes s = s) /\
  replaceBackslashes (replaceBackslashes s) = replaceBackslashes s.
Proof.
  repeat apply conj.
  - induction s as [| c rest IH]; cbn [replaceBackslashes String.length];
      [reflexivity | rewrite IH; reflexivity].
  - apply replaceBackslashes_clean.
  - apply replaceBackslashes_fixes_clean.
  - apply replaceBackslashes_fixes_clean, replaceBackslashes_clean.
Qed.

Lemma replaceBackslashes_normalizes_witness :
  replaceBackslashes "/sub/page.html" = "/sub/page.html"%string.
Proof.
  exact (proj1 (proj2 (proj2 (replaceBackslashes_normalizes "/sub/page.html"))) eq_refl).
Defined.

(** X18. Every connected event tells the task provider [JUST_STARTED] with the
    event's address, once and before anything else it does; the server is
    running afterwards. *)
Theorem connected_reports_just_started_first (uri : string) (m : Manager) :
  exists rest,
    effects (handle (Connected uri) m) = TaskServerStarted uri JUST_STARTED :: rest /\
    (forall u st, ~ In (TaskServerStarted u st) rest) /\
    Server.isRunning (_server (after (handle (Connected uri) m))) = true.
Proof.
  destruct m as [cp [running sr] [trun] pa ct nl ep ws cm pl rt
                    [cfg ts nt ss ns np ow]].
  crunch; eexists; (split; [reflexivity |]); split; try reflexivity;
    intros u st; cbn; intuition discriminate.
Qed.

(* ------------------------------------------------------------------ *)
(** ** Further properties: requests of both kinds before the server connects *)

(** With the server stopped and no task running, an external request only
    stores its intent, whichever way the server is then started. *)
Lemma showPreviewInBrowser_stopped_state (f : string) (r : bool) (m : Manager) :
  Server.isRunning (_server m) = false ->
  ServerTaskProvider.isRunning (_serverTaskProvider m) = false ->
  after (showPreviewInBrowser f r m)
    = set_pendingLaunchInfo (Some (mkLaunchInfo true f r None)) m.
Proof.
  destruct m as [cp [running sr] [trun] pa ct nl ep [w inD inA rel] cm pl rt h]; cbn.
  intros -> ->.
  destruct w, rt; unfold_ops; cbn; try reflexivity;
    destruct (sr (ConnectionManager.httpPort cm)); reflexivity.
Qed.

(** X19. The slot is shared by both kinds of request. With the server stopped
    and no task running, an embedded request that follows an external one
    replaces its intent, and the connected event then opens nothing in the
    browser; an external request that follows an embedded one replaces that
    intent, and the connected event then opens the browser once and creates
    no preview. *)
Theorem later_request_replaces_other_kind
    (p : option WebviewPanel) (fE fX : string) (rE rX : bool) (uri : string)
    (m : Manager) :
  Server.isRunning (_server m) = false ->
  ServerTaskProvider.isRunning (_serverTaskProvider m) = false ->
  let external_then_embedded :=
    after (createOrShowEmbeddedPreview p fE rE (after (showPreviewInBrowser fX rX m))) in
  let embedded_then_external :=
    after (showPreviewInBrowser fX rX (after (createOrShowEmbeddedPreview p fE rE m))) in
  _pendingLaunchInfo external_then_embedded = Some (mkLaunchInfo false fE rE p) /\
  count_external (effects (handle (Connected uri) external_then_embedded)) = 0%nat /\
  _pendingLaunchInfo embedded_then_external = Some (mkLaunchInfo true fX rX None) /\
  count_external (effects (handle (Connected uri) embedded_then_external)) = 1%nat /\
  count_previews (effects (handle (Connected uri) embedded_then_external)) = 0%nat.
Proof.
  intros Hstopped Htask mXE mEX.
  set (ext := mkLaunchInfo true fX rX None).
  set (emb := mkLaunchInfo false fE rE p).
  assert (HXE : mXE = set_pendingLaunchInfo (Some emb) m).
  { unfold mXE.
    rewrite (showPreviewInBrowser_stopped_state fX rX m Hstopped Htask).
    rewrite createOrShowEmbeddedPreview_stopped.
    - destruct m; reflexivity.
    - destruct m; exact Hstopped. }
  assert (HEX : mEX = set_pendingLaunchInfo (Some ext) m).
  { unfold mEX.
    rewrite (createOrShowEmbeddedPreview_stopped p fE rE m Hstopped).
    unfold after at 2; cbn [fst snd].
    rewrite showPreviewInBrowser_stopped_state.
    - destruct m; reflexivity.
    - destruct m; exact Hstopped.
    - destruct m; exact Htask. }
  rewrite HXE, HEX.
  pose proof (connected_dispatch uri emb (set_pendingLaunchInfo (Some emb) m)) as He.
  pose proof (connected_dispatch uri ext (set_pendingLaunchInfo (Some ext) m)) as Hx.
  cbn [external ext emb] in He, Hx.
  assert (Hpe : _pendingLaunchInfo (set_pendingLaunchInfo (Some emb) m) = Some emb)
    by (destruct m; reflexivity).
  assert (Hpx : _pendingLaunchInfo (set_pendingLaunchInfo (Some ext) m) = Some ext)
    by (destruct m; reflexivity).
  specialize (He Hpe). specialize (Hx Hpx).
  destruct Hx as (Hx1 & _ & Hx2 & _).
  repeat apply conj; assumption.
Qed.

Lemma later_request_replaces_witness :
  _pendingLaunchInfo
    (after (createOrShowEmbeddedPreview None "/b.html" true
              (after (showPreviewInBrowser "/a.html" true Sample.fresh))))
  = Some (mkLaunchInfo false "/b.html" true None).
Proof.
  exact (proj1 (later_request_replaces_other_kind None "/b.html" "/a.html" true true
                  "http://127.0.0.1:3000" Sample.fresh eq_refl eq_refl)).
Defined.

(** X20. Who starts the server for an external preview. With a task running,
    [showPreviewInBrowser] starts neither task nor server. With no task
    running, a workspace open and run-as-task on, it starts the task, with the
    logging setting as argument, and does not ask the server to start itself;
    otherwise it starts no task and asks the server to start exactly when the
    server is stopped. *)
Theorem showPreviewInBrowser_task_or_direct_start (f : string) (r : bool) (m : Manager) :
  let fx := effects (showPreviewInBrowser f r m) in
  if ServerTaskProvider.isRunning (_serverTaskProvider m) then
    (forall v, ~ In (TaskExtRunTask v) fx) /\ count_starts fx = 0%nat
  else if truthy (WorkspaceManager.workspace (_workspaceManager m))
          && _runTaskWithExternalPreview m then
    In (TaskExtRunTask (browserPreviewLaunchServerLogging (Host.config (host m)))) fx /\
    count_starts fx = 0%nat
  else
    (forall v, ~ In (TaskExtRunTask v) fx) /\
    count_starts fx = (if Server.isRunning (_server m) then 0 else 1)%nat.
Proof.
  destruct m as [cp [running sr] [trun] pa ct nl ep [w inD inA rel] cm pl rt
                    [cfg ts nt ss ns np ow]]; cbn.
  destruct trun; [| destruct w, rt; cbn; destruct running];
    crunch; cbn; repeat apply conj; try reflexivity; auto 8;
    try (intros v; cbn; intuition discriminate).
Qed.
